(** * Photo Collage Creator: a shallow embedding of [src/gui.py]

    The development models the PyQt6 front end of the collage creator
    (folder validation, the resolution drop-down, the preview worker and
    the save action) as pure functions over an explicit application state
    and an explicit file-system environment, and proves the properties the
    specification states about them. *)

From Stdlib Require Import ZArith Lia Bool Ascii String DecimalString.
From stdpp Require Import base option list gmap strings.

Local Open Scope Z_scope.

(* ===================================================================== *)
(** * Python built-ins used by the program                                *)
(* ===================================================================== *)

Module Py.

(** [c.lower()] on one character.  File names are modelled as byte
    strings: the capitals [A]..[Z] become small letters and every other
    byte is left as it is.  Python lower-cases by the Unicode rules; among
    the characters outside ASCII none is turned into a dot or into one of
    the letters of the suffixes tested below on its own, so the two agree
    on those tests. *)
Definition is_upper (c : ascii) : bool :=
  ((65 <=? nat_of_ascii c) && (nat_of_ascii c <=? 90))%nat.

Definition char_lower (c : ascii) : ascii :=
  if is_upper c then ascii_of_nat (nat_of_ascii c + 32) else c.

(** [s.lower()] *)
Fixpoint lower (s : string) : string :=
  match s with
  | EmptyString => EmptyString
  | String c rest => String (char_lower c) (lower rest)
  end.

(** [s.endswith(suffix)]: the tail of [s] of the suffix's length is
    compared with the suffix. *)
Definition endswith (s suffix : string) : bool :=
  let n := String.length s in
  let m := String.length suffix in
  (m <=? n)%nat && String.eqb (substring (n - m) m s) suffix.

(** [s.endswith(t)] for a tuple [t] of suffixes: true when one of them
    matches. *)
Definition endswith_any (s : string) (suffixes : list string) : bool :=
  existsb (endswith s) suffixes.

(** [math.isqrt(n)] for a non-negative [n]. *)
Definition isqrt (n : Z) : Z := Z.sqrt n.

(** [range(start, stop, step)] for a positive [step], as a list. *)
Definition range (start stop step : Z) : list Z :=
  let len := Z.to_nat ((stop - start + step - 1) / step) in
  map (fun i => start + step * Z.of_nat i) (seq 0 len).

(** [str(i)] for an integer. *)
Definition str (i : Z) : string := NilZero.string_of_int (Z.to_int i).

(** [int(s)] for the texts the drop-down can hold, decimal digits after
    an optional minus sign or nothing at all; [None] stands for
    [ValueError]. *)
Definition int (s : string) : option Z :=
  match NilZero.int_of_string s with
  | Some d => Some (Z.of_int d)
  | None => None
  end.

End Py.

(* ===================================================================== *)
(** * The image set of a directory                                        *)
(* ===================================================================== *)

(** [valid_extensions] of [update_dimension_label]. *)
Definition valid_extensions : list string :=
  [".jpg"; ".jpeg"; ".png"; ".gif"; ".bmp"; ".webp"]%string.

(** The test of the list comprehension:
    [f.lower().endswith(valid_extensions)]. *)
Definition is_image (f : string) : bool :=
  Py.endswith_any (Py.lower f) valid_extensions.

(** [[f for f in os.listdir(folder_path) if ...]] on the listing. *)
Definition image_set (entries : list string) : list string :=
  List.filter is_image entries.


(* ===================================================================== *)
(** * Path helpers ([os.path])                                            *)
(* ===================================================================== *)

Module Path.

(** The text after the last occurrence of [sep], if [sep] occurs. *)
Fixpoint after_last (sep : ascii) (s : string) : option string :=
  match s with
  | EmptyString => None
  | String c rest =>
      match after_last sep rest with
      | Some t => Some t
      | None => if Ascii.eqb c sep then Some rest else None
      end
  end.

(** The text up to and including the last occurrence of [sep]
    (empty when [sep] does not occur). *)
Fixpoint upto_last (sep : ascii) (s : string) : string :=
  match s with
  | EmptyString => EmptyString
  | String c rest =>
      match after_last sep rest with
      | Some _ => String c (upto_last sep rest)
      | None => if Ascii.eqb c sep then String c EmptyString else EmptyString
      end
  end.

Fixpoint lstrip (c : ascii) (s : string) : string :=
  match s with
  | String c' rest => if Ascii.eqb c' c then lstrip c rest else s
  | EmptyString => EmptyString
  end.

Definition rstrip (c : ascii) (s : string) : string :=
  String.rev (lstrip c (String.rev s)).

(** [os.path.basename(p)] *)
Definition basename (p : string) : string :=
  match after_last "/" p with
  | Some t => t
  | None => p
  end.

(** [os.path.dirname(p)]: the head up to the last slash, without its
    trailing slashes unless it consists of slashes only. *)
Definition dirname (p : string) : string :=
  let head := upto_last "/" p in
  if String.eqb (lstrip "/" head) "" then head else rstrip "/" head.

(** [os.path.splitext(p)[1]]: the extension of the last component, dot
    included; leading dots of the component do not start an extension. *)
Definition splitext_ext (p : string) : string :=
  match after_last "." (lstrip "." (basename p)) with
  | Some t => String "." t
  | None => EmptyString
  end.

(** [os.path.join(folder, name)] for a relative [name]. *)
Definition join (folder name : string) : string :=
  if String.eqb folder "" then name
  else if Py.endswith folder "/" then folder +:+ name
  else folder +:+ "/" +:+ name.

End Path.

(* ===================================================================== *)
(** * Raster images (the parts of Pillow's [Image] the program uses)      *)
(* ===================================================================== *)

Module Img.

Definition Pixel : Type := Z * Z * Z.

(** An image: its size and its pixel at every column [x] and row [y];
    only the pixels with [0 <= x < width] and [0 <= y < height] are
    meaningful. *)
Record Image : Type := mkImage {
  width : Z;
  height : Z;
  pixel : Z -> Z -> Pixel
}.

Definition size (im : Image) : Z * Z := (width im, height im).

Definition inside (im : Image) (x y : Z) : bool :=
  (0 <=? x) && (x <? width im) && (0 <=? y) && (y <? height im).

Definition black : Pixel := (0, 0, 0).

(** [Image.new(mode, (w, h))]: a black canvas. *)
Definition new (w h : Z) : Image := mkImage w h (fun _ _ => black).

(** [canvas.paste(tile, (ox, oy))]: the tile's pixels replace the canvas
    pixels of the box whose upper left corner is [(ox, oy)], clipped to the
    canvas. *)
Definition paste (canvas tile : Image) (ox oy : Z) : Image :=
  mkImage (width canvas) (height canvas)
    (fun x y =>
       if inside canvas x y && inside tile (x - ox) (y - oy)
       then pixel tile (x - ox) (y - oy)
       else pixel canvas x y).

Inductive Format : Type := JPEG | PNG | GIF | BMP | WEBP | TIFF.

(** What the imaging library computes with filters and codecs that are
    not part of the program: the resampling filter of [resize], the
    (possibly lossy) pixel content a codec stores, the registry that maps
    a lower-case file extension to an output format, the resolution
    tag the codecs other than JPEG's store for a requested [dpi] (in their
    own unit and rounding, or not at all), and the message of the
    exception a codec raises for an image it cannot write (its mode, its
    size), if it raises one. *)
Record Library : Type := mkLibrary {
  resample : Image -> Z -> Z -> Z -> Pixel;
  compress : Format -> Image -> Z -> Z -> Pixel;
  registry : string -> option Format;
  other_tag : Format -> Z * Z -> option (Z * Z);
  encoder_error : Format -> Image -> option string
}.

(** [im.resize((t, t))]: stretched to [t] x [t] whatever the aspect
    ratio of [im]. *)
Definition resize (lib : Library) (im : Image) (t : Z) : Image :=
  mkImage t t (resample lib im t).

End Img.

(* ===================================================================== *)
(** * The file system                                                     *)
(* ===================================================================== *)

Import Img.

(** What a file holds, as far as the program can tell: an encoded image
    (its format, the image a decoder returns for it and the resolution tag
    it embeds) or bytes that no image decoder accepts. *)
Inductive FileContent : Type :=
| ImageData (fmt : Format) (im : Image) (dpi : option (Z * Z))
| Garbage.

(** The directories [os.listdir] can list, with their listing in its
    order; files with their content; the paths the process may not open
    for writing; and the directories that exist but that [os.listdir]
    fails on (no permission to read them).  Paths are compared as they are
    written. *)
Record FileSystem : Type := mkFS {
  dirs : gmap string (list string);
  files : gmap string FileContent;
  read_only : gset string;
  unlistable : gset string
}.

(** [os.path.isdir(p)]: a directory, whether it can be listed or not. *)
Definition isdir (fs : FileSystem) (p : string) : bool :=
  bool_decide (is_Some (dirs fs !! p)) || bool_decide (p ∈ unlistable fs).

Definition path_exists (fs : FileSystem) (p : string) : bool :=
  isdir fs p || bool_decide (is_Some (files fs !! p)).

(** The directory a path lies in exists: the one its directory part
    names, or the current directory of the process for a bare file
    name. *)
Definition parent_exists (fs : FileSystem) (p : string) : bool :=
  String.eqb (Path.dirname p) "" || isdir fs (Path.dirname p).

(** [open(p, "w+b")] succeeds when the directory of [p] exists, [p] is
    not itself a directory and the process may write [p]. *)
Definition can_open_for_write (fs : FileSystem) (p : string) : bool :=
  parent_exists fs p && negb (isdir fs p)
  && negb (bool_decide (p ∈ read_only fs)).

Definition add_entry (name : string) (listing : list string) : list string :=
  if bool_decide (name ∈ listing) then listing else listing ++ [name].

(** Writing [content] to [p] (creating or replacing the file). *)
Definition write_file (fs : FileSystem) (p : string) (content : FileContent)
  : FileSystem :=
  mkFS (alter (add_entry (Path.basename p)) (Path.dirname p) (dirs fs))
       (<[p := content]> (files fs))
       (read_only fs) (unlistable fs).

(** What an encoding that fails leaves at [p]: the file was opened, and so
    truncated, before the codec ran; the library removes it again when the
    open had created it, and leaves it without a decodable image when it
    was there before. *)
Definition spoil_file (fs : FileSystem) (p : string) : FileSystem :=
  if bool_decide (is_Some (files fs !! p))
  then mkFS (dirs fs) (<[p := Garbage]> (files fs)) (read_only fs)
         (unlistable fs)
  else fs.

(** [Image.open(p)] followed by decoding: [None] when [p] is missing or
    does not hold a decodable image. *)
Definition open_image (fs : FileSystem) (p : string) : option Image :=
  match files fs !! p with
  | Some (ImageData _ im _) => Some im
  | _ => None
  end.

(* ===================================================================== *)
(** * Exceptions and results                                              *)
(* ===================================================================== *)

Inductive exn : Type :=
| AttributeError (attribute : string)
| ValueError (message : string)
| OSError (path : string)
| ImageLoadError (file : string)
| CountMismatch
| EncoderError (message : string).

(** [str(e)], the text shown to the user; for the errors of the operating
    system and of the decoder a text stands for the system's message. *)
Definition exn_str (e : exn) : string :=
  match e with
  | AttributeError a => "'PhotoCollageApp' object has no attribute '" +:+ a +:+ "'"
  | ValueError m => m
  | OSError p => "cannot open '" +:+ p +:+ "'"
  | ImageLoadError f => "cannot identify image file '" +:+ f +:+ "'"
  | CountMismatch => "the number of images does not match the grid"
  | EncoderError m => m
  end.

Inductive outcome (A : Type) : Type :=
| Ok (a : A)
| Raise (e : exn).
Arguments Ok {A} a.
Arguments Raise {A} e.

Definition bind {A B : Type} (m : outcome A) (k : A -> outcome B) : outcome B :=
  match m with
  | Ok a => k a
  | Raise e => Raise e
  end.

Notation "'try!' x ':=' m 'in' k" := (bind m (fun x => k))
  (at level 10, x pattern, m at level 100, k at level 200).

(* ===================================================================== *)
(** * The collage builder                                                 *)
(* ===================================================================== *)

(** Modelled from the spec: the order of the two checks of
    [create_collage].  The specification names the two failures of the
    builder and does not say which check is made first; both orders are
    modelled. *)
Inductive CheckOrder : Type := CountThenLoad | LoadThenCount.

Section Builder.

Variable lib : Library.
Variable order : CheckOrder.

(** Modelled from the spec: step 2 of [create_collage], loading the files
    one after the other; the first file that cannot be decoded ends the
    build with [ImageLoadError]. *)
Fixpoint load_all (fs : FileSystem) (folder : string) (names : list string)
  : outcome (list Image) :=
  match names with
  | [] => Ok []
  | f :: rest =>
      match open_image fs (Path.join folder f) with
      | None => Raise (ImageLoadError f)
      | Some im => try! imgs := load_all fs folder rest in Ok (im :: imgs)
      end
  end.

(** Modelled from the spec: step 4 of [create_collage], pasting the tiles
    from index [k] on; tile [k] goes to column [k % dimension] and row
    [k / dimension]. *)
Fixpoint place_tiles (tiles : list Image) (k : Z) (tileSize dimension : Z)
  (canvas : Image) : Image :=
  match tiles with
  | [] => canvas
  | tile :: rest =>
      let row := k / dimension in
      let col := k mod dimension in
      place_tiles rest (k + 1) tileSize dimension
        (paste canvas tile (col * tileSize) (row * tileSize))
  end.

(** Modelled from the spec: the defensive re-check of [create_collage]
    that the folder holds [dimension*dimension] recognized files. *)
Definition check_count (names : list string) (dimension : Z) : outcome unit :=
  if Z.of_nat (length names) =? dimension * dimension then Ok tt
  else Raise CountMismatch.

(** Modelled from the spec: [create_collage] of the module [photo_collage],
    which [gui.py] imports and which is not among the sources.  Section 4.2:
    enumerate the recognized files of the folder in listing order, load each
    and stretch it to [tileSize] x [tileSize], allocate a canvas of
    [(dimension*tileSize)] x [(dimension*tileSize)], paste the [k]-th tile
    at [(col*tileSize, row*tileSize)]; [ImageLoadError] for a file that
    cannot be decoded, [CountMismatch] when the number of recognized files
    is not [dimension*dimension]. *)
Definition create_collage (fs : FileSystem) (folder_path : string)
  (tileSize dimension : Z) : outcome Image :=
  match dirs fs !! folder_path with
  | None => Raise (OSError folder_path)
  | Some entries =>
      let names := image_set entries in
      try! imgs :=
        match order with
        | CountThenLoad =>
            try! _ := check_count names dimension in
            load_all fs folder_path names
        | LoadThenCount =>
            try! imgs := load_all fs folder_path names in
            try! _ := check_count names dimension in
            Ok imgs
        end in
      let tiles := map (fun im => resize lib im tileSize) imgs in
      Ok (place_tiles tiles 0 tileSize dimension
            (Img.new (dimension * tileSize) (dimension * tileSize)))
  end.

End Builder.

(* ===================================================================== *)
(** * The application state                                               *)
(* ===================================================================== *)

(** A [QComboBox]: its items and the current index ([-1] when none). *)
Record ComboBox : Type := mkCombo {
  items : list string;
  currentIndex : Z
}.

Definition addItems (cb : ComboBox) (texts : list string) : ComboBox :=
  mkCombo (items cb ++ texts)
          (if (currentIndex cb <? 0) && negb (Nat.eqb (length texts) 0)
           then 0 else currentIndex cb).

Definition setCurrentIndex (cb : ComboBox) (i : Z) : ComboBox :=
  mkCombo (items cb)
          (if (0 <=? i) && (i <? Z.of_nat (length (items cb))) then i else -1).

Definition currentText (cb : ComboBox) : string :=
  if currentIndex cb <? 0 then ""
  else nth (Z.to_nat (currentIndex cb)) (items cb) "".

(** An instance attribute that may not have been assigned yet. *)
Inductive attr (A : Type) : Type :=
| Unset
| Bound (a : A).
Arguments Unset {A}.
Arguments Bound {A} a.

(** What the preview label shows: the gray placeholder or the pixmap made
    from a collage, scaled to the label. *)
Inductive Pixmap : Type :=
| Placeholder
| ScaledFrom (collage : Image).

Inductive Icon : Type := Critical | Information.

Record MessageBox : Type := mkBox {
  box_icon : Icon;
  box_title : string;
  box_text : string
}.

(** The arguments a [CollageWorker] is created with. *)
Record CollageWorker : Type := mkWorker {
  w_folder_path : string;
  w_size_value : Z;
  w_dimension : Z
}.

(** The fields of [PhotoCollageApp] and the texts and flags of its
    widgets; [dialogs] lists the message boxes shown, latest first. *)
Record App : Type := mkApp {
  folder_path : string;
  output_path : string;
  size_dropdown : ComboBox;
  dimension_label : string;
  final_size_label : string;
  create_button_text : string;
  create_button_enabled : bool;
  save_button_enabled : bool;
  preview_label : Pixmap;
  dimension : attr (option Z);
  generated_collage : option Image;
  worker : option CollageWorker;
  dialogs : list MessageBox
}.

Definition set_folder_path (v : string) (a : App) : App :=
  mkApp v (output_path a) (size_dropdown a) (dimension_label a)
    (final_size_label a) (create_button_text a) (create_button_enabled a)
    (save_button_enabled a) (preview_label a) (dimension a)
    (generated_collage a) (worker a) (dialogs a).

Definition set_output_path (v : string) (a : App) : App :=
  mkApp (folder_path a) v (size_dropdown a) (dimension_label a)
    (final_size_label a) (create_button_text a) (create_button_enabled a)
    (save_button_enabled a) (preview_label a) (dimension a)
    (generated_collage a) (worker a) (dialogs a).

Definition set_size_dropdown (v : ComboBox) (a : App) : App :=
  mkApp (folder_path a) (output_path a) v (dimension_label a)
    (final_size_label a) (create_button_text a) (create_button_enabled a)
    (save_button_enabled a) (preview_label a) (dimension a)
    (generated_collage a) (worker a) (dialogs a).

Definition set_dimension_label (v : string) (a : App) : App :=
  mkApp (folder_path a) (output_path a) (size_dropdown a) v
    (final_size_label a) (create_button_text a) (create_button_enabled a)
    (save_button_enabled a) (preview_label a) (dimension a)
    (generated_collage a) (worker a) (dialogs a).

Definition set_final_size_label (v : string) (a : App) : App :=
  mkApp (folder_path a) (output_path a) (size_dropdown a) (dimension_label a)
    v (create_button_text a) (create_button_enabled a)
    (save_button_enabled a) (preview_label a) (dimension a)
    (generated_collage a) (worker a) (dialogs a).

Definition set_create_button_text (v : string) (a : App) : App :=
  mkApp (folder_path a) (output_path a) (size_dropdown a) (dimension_label a)
    (final_size_label a) v (create_button_enabled a)
    (save_button_enabled a) (preview_label a) (dimension a)
    (generated_collage a) (worker a) (dialogs a).

Definition set_create_button_enabled (v : bool) (a : App) : App :=
  mkApp (folder_path a) (output_path a) (size_dropdown a) (dimension_label a)
    (final_size_label a) (create_button_text a) v
    (save_button_enabled a) (preview_label a) (dimension a)
    (generated_collage a) (worker a) (dialogs a).

Definition set_save_button_enabled (v : bool) (a : App) : App :=
  mkApp (folder_path a) (output_path a) (size_dropdown a) (dimension_label a)
    (final_size_label a) (create_button_text a) (create_button_enabled a)
    v (preview_label a) (dimension a)
    (generated_collage a) (worker a) (dialogs a).

Definition set_preview_label (v : Pixmap) (a : App) : App :=
  mkApp (folder_path a) (output_path a) (size_dropdown a) (dimension_label a)
    (final_size_label a) (create_button_text a) (create_button_enabled a)
    (save_button_enabled a) v (dimension a)
    (generated_collage a) (worker a) (dialogs a).

Definition set_dimension (v : attr (option Z)) (a : App) : App :=
  mkApp (folder_path a) (output_path a) (size_dropdown a) (dimension_label a)
    (final_size_label a) (create_button_text a) (create_button_enabled a)
    (save_button_enabled a) (preview_label a) v
    (generated_collage a) (worker a) (dialogs a).

Definition set_generated_collage (v : option Image) (a : App) : App :=
  mkApp (folder_path a) (output_path a) (size_dropdown a) (dimension_label a)
    (final_size_label a) (create_button_text a) (create_button_enabled a)
    (save_button_enabled a) (preview_label a) (dimension a)
    v (worker a) (dialogs a).

Definition set_worker (v : option CollageWorker) (a : App) : App :=
  mkApp (folder_path a) (output_path a) (size_dropdown a) (dimension_label a)
    (final_size_label a) (create_button_text a) (create_button_enabled a)
    (save_button_enabled a) (preview_label a) (dimension a)
    (generated_collage a) v (dialogs a).

(** [QMessageBox.critical(self, title, text)] and
    [QMessageBox.information(self, title, text)]. *)
Definition message_box (icon : Icon) (title text : string) (a : App) : App :=
  mkApp (folder_path a) (output_path a) (size_dropdown a) (dimension_label a)
    (final_size_label a) (create_button_text a) (create_button_enabled a)
    (save_button_enabled a) (preview_label a) (dimension a)
    (generated_collage a) (worker a) (mkBox icon title text :: dialogs a).

(* ===================================================================== *)
(** * The handlers of [PhotoCollageApp]                                   *)
(* ===================================================================== *)

Section Handlers.

Variable lib : Library.

(** [create_collage] as imported from [photo_collage]: the handlers only
    call it and pass its result or its exception on. *)
Variable builder : FileSystem -> string -> Z -> Z -> outcome Image.

(** [setup_resolution]: the drop-down and its initial selection.  The
    index is set before the change signal is connected. *)
Definition setup_resolution : ComboBox :=
  let size_dropdown := mkCombo [] (-1) in
  let size_dropdown := addItems size_dropdown (map Py.str (Py.range 100 1100 100)) in
  setCurrentIndex size_dropdown 3.

(** [init_ui]: the widgets as the [setup_*] methods create them, for the
    standard pictures directory [pictures]. *)
Definition init_ui (pictures : string) : App :=
  mkApp (Path.join pictures "images") (Path.join pictures "collage.jpg")
    setup_resolution
    "No valid directory selected yet." "Final collage size: Unknown"
    "Generate Preview" true false Placeholder Unset None None [].

(** [update_final_size_label] *)
Definition update_final_size_label (a : App) : outcome App :=
  match dimension a with
  | Unset => Raise (AttributeError "dimension")
  | Bound None => Ok a
  | Bound (Some d) =>
      match Py.int (currentText (size_dropdown a)) with
      | Some size_value =>
          let final_size := size_value * d in
          Ok (set_final_size_label
                ("Final collage size: " +:+ Py.str final_size +:+ " x "
                 +:+ Py.str final_size) a)
      | None => Ok (set_final_size_label "Invalid resolution entry." a)
      end
  end.

(** [update_dimension_label] *)
Definition update_dimension_label (fs : FileSystem) (folder : string) (a : App)
  : outcome App :=
  match dirs fs !! folder with
  | None => Raise (OSError folder)
  | Some entries =>
      let images := image_set entries in
      let num_images := Z.of_nat (length images) in
      if num_images =? 0 then
        let a := set_dimension_label
          "No images found in this folder. Please select a different folder." a in
        let a := set_dimension (Bound None) a in
        let a := set_final_size_label "Final collage size: Unknown" a in
        Ok (set_create_button_enabled false a)
      else
        let dim := Py.isqrt num_images in
        if dim * dim =? num_images then
          let a := set_dimension (Bound (Some dim)) a in
          let a := set_dimension_label
            (Py.str dim +:+ " x " +:+ Py.str dim +:+ " collage ("
             +:+ Py.str num_images +:+ " images)") a in
          try! a := update_final_size_label a in
          Ok (set_create_button_enabled true a)
        else
          let a := set_dimension (Bound None) a in
          let a := set_dimension_label
            ("Cannot use this folder. " +:+ Py.str num_images
             +:+ " images found, which is not a perfect square.") a in
          let a := set_final_size_label "Final collage size: Unknown" a in
          Ok (set_create_button_enabled false a)
  end.

(** [check_default_folder] *)
Definition check_default_folder (fs : FileSystem) (a : App) : outcome App :=
  let default_folder := folder_path a in
  if isdir fs default_folder then update_dimension_label fs default_folder a
  else Ok a.

(** [__init__]; the platform tweaks only touch fonts and button heights. *)
Definition init (fs : FileSystem) (pictures : string) : outcome App :=
  let a := init_ui pictures in
  let a := set_generated_collage None a in
  check_default_folder fs a.

(** [browse_folder], for the directory the dialog returned (empty when the
    dialog was cancelled). *)
Definition browse_folder (fs : FileSystem) (folder_selected : string) (a : App)
  : outcome App :=
  if String.eqb folder_selected "" then Ok a
  else update_dimension_label fs folder_selected
         (set_folder_path folder_selected a).

(** [browse_output_path] *)
Definition browse_output_path (file_selected : string) (a : App) : App :=
  if String.eqb file_selected "" then a else set_output_path file_selected a.

(** [preview_collage]: the checks, then the worker is created and
    started. *)
Definition preview_collage (fs : FileSystem) (a : App) : outcome App :=
  let folder := folder_path a in
  if negb (path_exists fs folder) then
    Ok (message_box Critical "Error" "The selected folder does not exist." a)
  else
    match dimension a with
    | Unset => Raise (AttributeError "dimension")
    | Bound None =>
        Ok (message_box Critical "Error"
              "Please select a valid folder with a perfect square number of images." a)
    | Bound (Some d) =>
        match Py.int (currentText (size_dropdown a)) with
        | None => Raise (ValueError "invalid literal for int()")
        | Some size_value =>
            Ok (set_worker (Some (mkWorker folder size_value d)) a)
        end
    end.

(** The two result signals of [CollageWorker]. *)
Inductive Signal : Type :=
| collage_created (collage : Image)
| error_occurred (message : string).

(** [CollageWorker.run] *)
Definition run (fs : FileSystem) (w : CollageWorker) : Signal :=
  match builder fs (w_folder_path w) (w_size_value w) (w_dimension w) with
  | Ok collage => collage_created collage
  | Raise e => error_occurred (exn_str e)
  end.

(** [on_worker_started] *)
Definition on_worker_started (a : App) : App :=
  let a := set_create_button_text "Generating..." a in
  let a := set_create_button_enabled false a in
  set_save_button_enabled false a.

(** [on_worker_finished] *)
Definition on_worker_finished (a : App) : App :=
  let a := set_create_button_text "Generate Preview" a in
  let a := set_create_button_enabled true a in
  set_save_button_enabled true a.

(** [on_collage_created] *)
Definition on_collage_created (collage : Image) (a : App) : App :=
  let a := set_generated_collage (Some collage) a in
  set_preview_label (ScaledFrom collage) a.

(** [on_error_occurred] *)
Definition on_error_occurred (error_message : string) (a : App) : App :=
  message_box Critical "Error" error_message a.

(** The slot connected to the signal the worker emitted. *)
Definition deliver (s : Signal) (a : App) : App :=
  match s with
  | collage_created collage => on_collage_created collage a
  | error_occurred message => on_error_occurred message a
  end.

(** One whole build: the worker starts, runs and finishes, and its three
    signals reach the window in that order. *)
Definition build (fs : FileSystem) (w : CollageWorker) (a : App) : App :=
  on_worker_finished (deliver (run fs w) (on_worker_started a)).

(** The resolution tag a file of format [fmt] embeds for [dpi]. *)
Definition embedded_dpi (fmt : Format) (dpi : Z * Z) : option (Z * Z) :=
  match fmt with
  | JPEG => Some dpi
  | _ => other_tag lib fmt dpi
  end.

(** [im.save(path, dpi=dpi)]: the output format is the one registered for
    the lower-cased extension of [path] ([ValueError] when there is none),
    then the file is opened for writing and the image encoded into it; an
    exception of the codec leaves the opened file behind as [spoil_file]
    says.  The result is the file system afterwards and the value or the
    exception of the call. *)
Definition save (fs : FileSystem) (im : Image) (path : string) (dpi : Z * Z)
  : FileSystem * outcome unit :=
  let ext := Py.lower (Path.splitext_ext path) in
  match registry lib ext with
  | None => (fs, Raise (ValueError ("unknown file extension: " +:+ ext)))
  | Some fmt =>
      if can_open_for_write fs path then
        match encoder_error lib fmt im with
        | None =>
            let stored := mkImage (width im) (height im) (compress lib fmt im) in
            (write_file fs path (ImageData fmt stored (embedded_dpi fmt dpi)),
             Ok tt)
        | Some message => (spoil_file fs path, Raise (EncoderError message))
        end
      else (fs, Raise (OSError path))
  end.

(** [save_collage] *)
Definition save_collage (fs : FileSystem) (a : App) : FileSystem * App :=
  match generated_collage a with
  | None =>
      (fs, message_box Critical "Error"
             "No collage to save. Generate a preview first." a)
  | Some collage =>
      match save fs collage (output_path a) (300, 300) with
      | (fs', Ok _) =>
          (fs', message_box Information "Success"
                  ("Collage saved to " +:+ output_path a +:+ "!") a)
      | (fs', Raise e) => (fs', message_box Critical "Error" (exn_str e) a)
      end
  end.

(** [size_dropdown] changed by the user: [currentIndexChanged] calls
    [update_final_size_label] when the index really changes. *)
Definition choose_size (index : Z) (a : App) : outcome App :=
  let cb := setCurrentIndex (size_dropdown a) index in
  if currentIndex cb =? currentIndex (size_dropdown a) then Ok a
  else update_final_size_label (set_size_dropdown cb a).

(** What can happen to the window: the user's actions and the worker's
    signals. *)
Inductive Event : Type :=
| BrowseFolder (folder_selected : string)
| BrowseOutput (file_selected : string)
| TypeFolder (text : string)
| TypeOutput (text : string)
| ChooseSize (index : Z)
| ClickPreview
| WorkerStarted
| WorkerResult
| WorkerFinished
| ClickSave.

(** One event handled on the interactive thread.  A disabled button does
    not emit [clicked]; an exception that leaves a slot is not handled. *)
Definition handle (fs : FileSystem) (a : App) (ev : Event)
  : outcome (FileSystem * App) :=
  match ev with
  | BrowseFolder folder_selected =>
      try! a' := browse_folder fs folder_selected a in Ok (fs, a')
  | BrowseOutput file_selected => Ok (fs, browse_output_path file_selected a)
  | TypeFolder text => Ok (fs, set_folder_path text a)
  | TypeOutput text => Ok (fs, set_output_path text a)
  | ChooseSize index => try! a' := choose_size index a in Ok (fs, a')
  | ClickPreview =>
      if create_button_enabled a
      then try! a' := preview_collage fs a in Ok (fs, a')
      else Ok (fs, a)
  | WorkerStarted => Ok (fs, on_worker_started a)
  | WorkerResult =>
      match worker a with
      | Some w => Ok (fs, deliver (run fs w) a)
      | None => Ok (fs, a)
      end
  | WorkerFinished => Ok (fs, on_worker_finished a)
  | ClickSave =>
      if save_button_enabled a then Ok (save_collage fs a) else Ok (fs, a)
  end.

End Handlers.

(* ===================================================================== *)
(** * The specification's words for the image set                         *)
(* ===================================================================== *)

(** The recognized extensions as the specification lists them. *)
Definition recognized_extensions : list string :=
  ["jpg"; "jpeg"; "png"; "gif"; "bmp"; "webp"].

(** Two characters that are the same up to the case of an ASCII letter:
    equal, or one is a capital [A]..[Z] and the other the small letter 32
    code points above it. *)
Definition capital_of (a b : ascii) : Prop :=
  (65 <= nat_of_ascii a <= 90)%nat /\ nat_of_ascii b = (nat_of_ascii a + 32)%nat.

Definition same_letter (a b : ascii) : Prop :=
  a = b \/ capital_of a b \/ capital_of b a.

Inductive ci_equal : string -> string -> Prop :=
| ci_empty : ci_equal "" ""
| ci_cons a b s t :
    same_letter a b -> ci_equal s t -> ci_equal (String a s) (String b t).

(** [name] ends, case-insensitively, with the extension [ext]. *)
Definition ends_with_extension (name ext : string) : Prop :=
  exists stem tail, name = stem +:+ String "." tail /\ ci_equal tail ext.

Definition recognized (name : string) : Prop :=
  exists ext, ext ∈ recognized_extensions /\ ends_with_extension name ext.

(** An extension that is none of the recognized ones, in any case. *)
Definition other_extension (ext : string) : Prop :=
  forall e, e ∈ recognized_extensions -> ~ ci_equal ext e.

(* ===================================================================== *)
(** * The specification's words for saving                              *)
(* ===================================================================== *)

(** Section 4.3 read to the letter: whatever the output path, a save that
    can write it leaves a JPEG file with the 300 x 300 tag and the
    collage's pixel dimensions there. *)
Definition save_always_jpeg (lib : Library) : Prop :=
  forall fs a collage,
    generated_collage a = Some collage ->
    can_open_for_write fs (output_path a) = true ->
    exists stored,
      files (fst (save_collage lib fs a)) !! output_path a
      = Some (ImageData JPEG stored (Some (300, 300)))
      /\ Img.size stored = Img.size collage.

(** The states of the window: the one [__init__] leaves, and those that
    handling an event leads to, on whatever the file system holds at that
    moment. *)
Inductive reachable (lib : Library)
  (builder : FileSystem -> string -> Z -> Z -> outcome Image) : App -> Prop :=
| reach_init fs pictures a :
    init fs pictures = Ok a -> reachable lib builder a
| reach_step fs a ev fs' a' :
    reachable lib builder a ->
    handle lib builder fs a ev = Ok (fs', a') ->
    reachable lib builder a'.

(** The final-size label shows the product of the selected resolution and
    the grid dimension, when both are there. *)
Definition label_in_sync (a : App) : Prop :=
  forall d t,
    dimension a = Bound (Some d) ->
    Py.int (currentText (size_dropdown a)) = Some t ->
    final_size_label a
    = "Final collage size: " +:+ Py.str (t * d) +:+ " x " +:+ Py.str (t * d).

(** The fields the final-size label depends on, and the label. *)
Definition label_fields (a : App) : attr (option Z) * ComboBox * string :=
  (dimension a, size_dropdown a, final_size_label a).

(** The cell of the grid that tile [k] is pasted into, for tile size [t]
    and dimension [d]. *)
Definition in_box (t d k x y : Z) : Prop :=
  (k mod d) * t <= x < (k mod d) * t + t
  /\ (k / d) * t <= y < (k / d) * t + t.

Definition square_tile (t : Z) (tile : Image) : Prop :=
  width tile = t /\ height tile = t.

(** The collage the window holds and the preview it shows. *)
Definition collage_state (a : App) : option Image * Pixmap :=
  (generated_collage a, preview_label a).

(* ===================================================================== *)
(** * Sample inputs                                                       *)
(* ===================================================================== *)

(** Nearest-neighbour resampling, as a stand-in filter. *)
Definition nearest (im : Image) (t x y : Z) : Pixel :=
  pixel im (x * width im / t) (y * height im / t).

(** The extensions Pillow registers for the formats modelled here. *)
Definition pillow_registry (ext : string) : option Format :=
  if bool_decide (ext ∈ [".jpg"; ".jpeg"; ".jpe"; ".jfif"]) then Some JPEG
  else if bool_decide (ext ∈ [".png"; ".apng"]) then Some PNG
  else if bool_decide (ext = ".gif") then Some GIF
  else if bool_decide (ext = ".bmp") then Some BMP
  else if bool_decide (ext = ".webp") then Some WEBP
  else if bool_decide (ext ∈ [".tif"; ".tiff"]) then Some TIFF
  else None.

(** The JPEG codec refuses an image with a side above 65500 pixels. *)
Definition jpeg_size_limit (fmt : Format) (im : Image) : option string :=
  match fmt with
  | JPEG =>
      if (65500 <? width im) || (65500 <? height im)
      then Some "Maximum supported image dimension is 65500 pixels"
      else None
  | _ => None
  end.

Definition sample_lib : Library :=
  mkLibrary nearest (fun _ im => pixel im) pillow_registry (fun _ _ => None)
    jpeg_size_limit.

(** A 3 x 2 image of one gray level. *)
Definition solid (c : Z) : Image := mkImage 3 2 (fun _ _ => (c, c, c)).

Definition sample_fs : FileSystem :=
  mkFS
    (list_to_map
       [("pics", ["a.jpg"; "notes.txt"; "b.PNG"; "c.gif"; "d.webp"]);
        ("five", ["1.jpg"; "2.jpg"; "3.jpg"; "4.jpg"; "5.jpg"]);
        ("bad", ["x.jpg"]);
        ("empty", ["readme.md"]);
        ("out", [])])
    (list_to_map
       [("pics/a.jpg", ImageData JPEG (solid 10) None);
        ("pics/b.PNG", ImageData PNG (solid 20) None);
        ("pics/c.gif", ImageData GIF (solid 30) None);
        ("pics/d.webp", ImageData WEBP (solid 40) None);
        ("pics/notes.txt", Garbage);
        ("bad/x.jpg", Garbage)])
    {["out/locked.jpg"]} {["sealed"]}.

(** The window right after [init_ui], and with a folder chosen. *)
Definition fresh_app : App := set_generated_collage None (init_ui "home").

Definition pics_app : App :=
  set_create_button_enabled true
    (set_dimension (Bound (Some 2)) (set_folder_path "pics" fresh_app)).

(** A window that holds a 4 x 4 collage and is about to save it to
    [path]. *)
Definition saving_app (path : string) : App :=
  set_output_path path
    (set_preview_label (ScaledFrom (Img.new 4 4))
       (set_generated_collage (Some (Img.new 4 4)) pics_app)).

(* ===================================================================== *)
(** * What every state of the window satisfies                            *)
(* ===================================================================== *)

(** A worker as [preview_collage] creates them: a positive grid dimension
    and one of the ten tile sizes of the drop-down. *)
Definition sane_worker (w : CollageWorker) : Prop :=
  0 < w_dimension w /\ exists k, 1 <= k <= 10 /\ w_size_value w = 100 * k.

(** The preview shows the stored collage, or the placeholder when there is
    none. *)
Definition shows_stored_collage (a : App) : Prop :=
  collage_state a = (None, Placeholder)
  \/ exists c, collage_state a = (Some c, ScaledFrom c).

Definition window_inv (a : App) : Prop :=
  items (size_dropdown a) = items setup_resolution
  /\ (forall d, dimension a = Bound (Some d) -> 0 < d)
  /\ (forall w, worker a = Some w -> sane_worker w)
  /\ shows_stored_collage a.

(** A window in which a first build is running: a folder was validated,
    the preview button clicked, and no collage exists yet. *)
Definition building_app : App :=
  set_worker (Some (mkWorker "pics" 400 2)) pics_app.

(** The sample window after the folder [pics] was browsed to, after the
    preview button was then clicked, and after the worker's result came
    in. *)
Definition after_event (fs : FileSystem) (a : App) (ev : Event) : App :=
  match handle sample_lib (create_collage sample_lib CountThenLoad) fs a ev with
  | Ok (_, a') => a'
  | Raise _ => a
  end.

Definition browsed_app : App :=
  after_event sample_fs fresh_app (BrowseFolder "pics").

Definition previewing_app : App :=
  after_event sample_fs browsed_app ClickPreview.

Definition built_app : App :=
  after_event sample_fs previewing_app WorkerResult.

(* ===================================================================== *)
(** * Strings: suffixes and lower case                                    *)
(* ===================================================================== *)

Lemma app_cons (c : ascii) (a b : string) :
  String c a +:+ b = String c (a +:+ b).
Proof. reflexivity. Qed.

Lemma app_empty (b : string) : "" +:+ b = b.
Proof. reflexivity. Qed.

Lemma app_assoc_str (a b c : string) : (a +:+ b) +:+ c = a +:+ (b +:+ c).
Proof.
  induction a as [|x a IH]; rewrite ?app_empty, ?app_cons; [reflexivity|].
  now rewrite IH.
Qed.

Lemma length_app_str (a b : string) :
  String.length (a +:+ b) = (String.length a + String.length b)%nat.
Proof.
  induction a as [|x a IH]; rewrite ?app_empty, ?app_cons; simpl;
    [reflexivity | now rewrite IH].
Qed.

Lemma substring_whole (s : string) : substring 0 (String.length s) s = s.
Proof. induction s as [|c s IH]; simpl; [reflexivity | now rewrite IH]. Qed.

Lemma substring_skip (pre s : string) (m : nat) :
  substring (String.length pre) m (pre +:+ s) = substring 0 m s.
Proof.
  induction pre as [|c pre IH]; rewrite ?app_empty, ?app_cons; simpl;
    [reflexivity | exact IH].
Qed.

Lemma substring_split (s : string) (k : nat) :
  (k <= String.length s)%nat ->
  s = substring 0 k s +:+ substring k (String.length s - k) s.
Proof.
  revert k. induction s as [|c s IH]; intros k Hk; simpl in *.
  - destruct k; [reflexivity | lia].
  - destruct k as [|k]; simpl.
    + now rewrite substring_whole.
    + rewrite app_cons. f_equal. apply IH. lia.
Qed.

(** [endswith] holds exactly of the strings that are some prefix followed
    by the suffix. *)
Lemma endswith_iff (s suffix : string) :
  Py.endswith s suffix = true <-> exists pre, s = pre +:+ suffix.
Proof.
  unfold Py.endswith. rewrite andb_true_iff, Nat.leb_le, String.eqb_eq. split.
  - intros [Hle Hsub].
    exists (substring 0 (String.length s - String.length suffix) s).
    pose proof (substring_split s (String.length s - String.length suffix)) as E.
    replace (String.length s - (String.length s - String.length suffix))%nat
      with (String.length suffix) in E by lia.
    rewrite Hsub in E. apply E. lia.
  - intros [pre ->]. rewrite length_app_str. split; [lia|].
    replace (String.length pre + String.length suffix - String.length suffix)%nat
      with (String.length pre) by lia.
    rewrite substring_skip. apply substring_whole.
Qed.

Lemma lower_app (a b : string) : Py.lower (a +:+ b) = Py.lower a +:+ Py.lower b.
Proof.
  induction a as [|c a IH]; rewrite ?app_empty, ?app_cons; simpl;
    [reflexivity | now rewrite IH, app_cons].
Qed.

Lemma lower_app_inv (s u v : string) :
  Py.lower s = u +:+ v ->
  exists s1 s2, s = s1 +:+ s2 /\ Py.lower s1 = u /\ Py.lower s2 = v.
Proof.
  revert s. induction u as [|c u IH]; intros s H.
  - exists "", s. auto.
  - rewrite app_cons in H. destruct s as [|x s]; simpl in H; [discriminate|].
    injection H as Hc Hs. destruct (IH _ Hs) as (s1 & s2 & -> & <- & <-).
    exists (String x s1), s2. simpl. now rewrite Hc.
Qed.

(** ** Characters up to case *)

Lemma is_upper_bounds (c : ascii) :
  Py.is_upper c = true <-> (65 <= nat_of_ascii c <= 90)%nat.
Proof.
  unfold Py.is_upper. rewrite andb_true_iff, !Nat.leb_le. tauto.
Qed.

Lemma nat_of_shifted (c : ascii) :
  (nat_of_ascii c <= 90)%nat ->
  nat_of_ascii (ascii_of_nat (nat_of_ascii c + 32)) = (nat_of_ascii c + 32)%nat.
Proof. intros H. apply nat_ascii_embedding. lia. Qed.

Lemma same_letter_lower (c : ascii) : same_letter c (Py.char_lower c).
Proof.
  unfold Py.char_lower. destruct (Py.is_upper c) eqn:E; [|now left].
  apply is_upper_bounds in E. right; left. split; [exact E|].
  apply nat_of_shifted. lia.
Qed.

Lemma lower_of_same_letter (a b : ascii) :
  same_letter a b -> Py.char_lower b = b -> Py.char_lower a = b.
Proof.
  intros [-> | [[Ha Hb] | [Hb Ha]]] Hfix; [exact Hfix | |].
  - unfold Py.char_lower.
    destruct (Py.is_upper a) eqn:E.
    + rewrite <- Hb. apply ascii_nat_embedding.
    + apply not_true_iff_false in E. rewrite is_upper_bounds in E. lia.
  - exfalso. unfold Py.char_lower in Hfix.
    destruct (Py.is_upper b) eqn:E.
    + apply (f_equal nat_of_ascii) in Hfix.
      rewrite nat_of_shifted in Hfix; lia.
    + apply not_true_iff_false in E. rewrite is_upper_bounds in E. lia.
Qed.

Lemma char_lower_dot (c : ascii) : Py.char_lower c = "."%char -> c = "."%char.
Proof.
  unfold Py.char_lower. destruct (Py.is_upper c) eqn:E; [|auto].
  intros H. apply is_upper_bounds in E.
  apply (f_equal nat_of_ascii) in H. rewrite nat_of_shifted in H by lia.
  change (nat_of_ascii ".") with 46%nat in H. lia.
Qed.

Lemma same_letter_dot (a b : ascii) :
  same_letter a b -> a = "."%char -> b = "."%char.
Proof.
  intros [-> | [[Ha Hb] | [Hb Ha]]] ->; [reflexivity | |];
    change (nat_of_ascii ".") with 46%nat in *; lia.
Qed.

Lemma ci_equal_lower (s : string) : ci_equal s (Py.lower s).
Proof.
  induction s as [|c s IH]; simpl; constructor; auto using same_letter_lower.
Qed.

Lemma lower_of_ci_equal (s e : string) :
  ci_equal s e -> Py.lower e = e -> Py.lower s = e.
Proof.
  induction 1 as [|a b s t Hab _ IH]; simpl; [reflexivity|].
  intros H. injection H as Hb Ht.
  now rewrite (lower_of_same_letter a b Hab Hb), (IH Ht).
Qed.

(** ** The text after the last dot *)

Lemma after_last_app (sep : ascii) (stem tail : string) :
  Path.after_last sep tail = None ->
  Path.after_last sep (stem +:+ String sep tail) = Some tail.
Proof.
  intros Hfree. induction stem as [|c stem IH]; rewrite ?app_empty, ?app_cons.
  - simpl. now rewrite Hfree, Ascii.eqb_refl.
  - simpl. now rewrite IH.
Qed.

Lemma ci_equal_dot_free (s e : string) :
  ci_equal s e ->
  Path.after_last "." e = None -> Path.after_last "." s = None.
Proof.
  induction 1 as [|a b s t Hab _ IH]; simpl; [reflexivity|].
  destruct (Path.after_last "." t); [discriminate|].
  rewrite (IH eq_refl).
  destruct (Ascii.eqb_spec b "."); [discriminate|]. intros _.
  destruct (Ascii.eqb_spec a "."); [|reflexivity].
  exfalso. eauto using same_letter_dot.
Qed.

Lemma after_last_occurs (sep : ascii) (stem tail : string) :
  Path.after_last sep (stem +:+ String sep tail) <> None.
Proof.
  induction stem as [|c stem IH]; rewrite ?app_empty, ?app_cons; simpl.
  - destruct (Path.after_last sep tail); [discriminate|].
    now rewrite Ascii.eqb_refl.
  - destruct (Path.after_last sep (stem +:+ String sep tail));
      [discriminate | contradiction].
Qed.

(** ** The filter of the program and the words of the specification *)

Lemma valid_extensions_dotted :
  valid_extensions = map (String ".") recognized_extensions.
Proof. reflexivity. Qed.

Lemma recognized_extensions_lower (e : string) :
  e ∈ recognized_extensions -> Py.lower e = e /\ Path.after_last "." e = None.
Proof.
  unfold recognized_extensions. rewrite !elem_of_cons, elem_of_nil.
  intros H. repeat destruct H as [-> | H]; try (split; reflexivity).
  contradiction.
Qed.

Lemma is_image_iff (f : string) : is_image f = true <-> recognized f.
Proof.
  unfold is_image, Py.endswith_any. rewrite existsb_exists. split.
  - intros (suf & Hin & Hend). rewrite valid_extensions_dotted in Hin.
    apply in_map_iff in Hin as (e & <- & He).
    apply endswith_iff in Hend as [pre Hpre].
    apply lower_app_inv in Hpre as (s1 & s2 & -> & _ & Hs2).
    destruct s2 as [|c tail]; simpl in Hs2; [discriminate|].
    injection Hs2 as Hc Htail. apply char_lower_dot in Hc as ->.
    exists e. split; [now apply list_elem_of_In|].
    exists s1, tail. split; [reflexivity|].
    rewrite <- Htail. apply ci_equal_lower.
  - intros (e & He & stem & tail & -> & Hci).
    exists (String "." e). split.
    + rewrite valid_extensions_dotted. apply in_map. now apply list_elem_of_In.
    + apply endswith_iff. exists (Py.lower stem).
      rewrite lower_app. simpl.
      destruct (recognized_extensions_lower e He) as [Hlow _].
      now rewrite (lower_of_ci_equal tail e Hci Hlow).
Qed.

Lemma image_set_sublist (entries : list string) :
  sublist (image_set entries) entries.
Proof.
  induction entries as [|f entries IH]; simpl; [constructor|].
  destruct (is_image f); now constructor.
Qed.

Lemma elem_of_image_set (entries : list string) (f : string) :
  f ∈ image_set entries <-> f ∈ entries /\ is_image f = true.
Proof.
  unfold image_set. rewrite !list_elem_of_In. apply filter_In.
Qed.

(** C7. The image set of a directory listing consists of exactly the
    entries whose name ends, in any mix of upper and lower case, with a dot
    and one of jpg, jpeg, png, gif, bmp, webp, in listing order; an entry
    whose text after the last dot is none of these, or that has no dot, is
    never in it. *)
Theorem image_set_recognized_only (entries : list string) :
  (forall f, f ∈ image_set entries <-> f ∈ entries /\ recognized f)
  /\ sublist (image_set entries) entries
  /\ (forall f ext, Path.after_last "." f = Some ext -> other_extension ext ->
        f ∉ image_set entries)
  /\ (forall f, Path.after_last "." f = None -> f ∉ image_set entries).
Proof.
  split; [|split; [|split]].
  - intros f. rewrite elem_of_image_set, is_image_iff. reflexivity.
  - apply image_set_sublist.
  - intros f ext Hext Hother Hin.
    apply elem_of_image_set in Hin as [_ Hrec].
    apply is_image_iff in Hrec as (e & He & stem & tail & -> & Hci).
    destruct (recognized_extensions_lower e He) as [_ Hfree].
    rewrite (after_last_app "." stem tail) in Hext
      by eauto using ci_equal_dot_free.
    injection Hext as <-. exact (Hother e He Hci).
  - intros f Hnone Hin.
    apply elem_of_image_set in Hin as [_ Hrec].
    apply is_image_iff in Hrec as (e & He & stem & tail & -> & Hci).
    exact (after_last_occurs "." stem tail Hnone).
Qed.

Lemma image_set_recognized_only_witness :
  "a.JPG" ∈ image_set ["a.JPG"; "cjpg"; "b.txt"]
  /\ "cjpg" ∉ image_set ["a.JPG"; "cjpg"; "b.txt"].
Proof.
  pose proof (image_set_recognized_only ["a.JPG"; "cjpg"; "b.txt"])
    as (Hin & _ & _ & Hnodot).
  split.
  - apply Hin. split; [apply list_elem_of_here|].
    exists "jpg". split; [apply list_elem_of_here|].
    exists "a", "JPG". split; [reflexivity|].
    repeat constructor; right; right; split; vm_compute; try reflexivity; lia.
  - apply Hnodot. reflexivity.
Defined.

(* ===================================================================== *)
(** * Folder validation                                                   *)
(* ===================================================================== *)

Lemma update_final_size_label_bound (a : App) (d : Z) :
  dimension a = Bound (Some d) ->
  exists text,
    update_final_size_label a = Ok (set_final_size_label text a).
Proof.
  intros Hd. unfold update_final_size_label. rewrite Hd.
  destruct (Py.int (currentText (size_dropdown a))); eauto.
Qed.

(** C1. When the number [n] of recognized entries of the folder is a
    non-zero perfect square [d*d], [update_dimension_label] succeeds, sets
    the grid dimension to [d], which is [isqrt n], and enables collage
    generation; when [n] is non-zero and no square, it leaves no grid
    dimension set and disables generation. *)
Theorem update_dimension_label_perfect_square
  (fs : FileSystem) (folder : string) (a : App) (entries : list string)
  (Hdir : dirs fs !! folder = Some entries)
  (Hn : Z.of_nat (length (image_set entries)) <> 0) :
  let n := Z.of_nat (length (image_set entries)) in
  (forall d, 0 < d -> n = d * d ->
     d = Py.isqrt n /\
     exists a', update_dimension_label fs folder a = Ok a'
       /\ dimension a' = Bound (Some d)
       /\ create_button_enabled a' = true)
  /\ ((forall d, n <> d * d) ->
      exists a', update_dimension_label fs folder a = Ok a'
        /\ dimension a' = Bound None
        /\ create_button_enabled a' = false
        /\ final_size_label a' = "Final collage size: Unknown").
Proof.
  intros n. unfold update_dimension_label. rewrite Hdir. cbv zeta.
  fold n. destruct (Z.eqb_spec n 0) as [E|_]; [contradiction|]. split.
  - intros d Hd Hsq.
    assert (Hroot : Py.isqrt n = d).
    { unfold Py.isqrt. rewrite Hsq. apply Z.sqrt_square. lia. }
    split; [now symmetry|]. rewrite Hroot, <- Hsq, Z.eqb_refl.
    edestruct update_final_size_label_bound as [text ->]; [reflexivity|].
    simpl. eauto.
  - intros Hno. destruct (Z.eqb_spec (Py.isqrt n * Py.isqrt n) n) as [E|_].
    + exfalso. exact (Hno (Py.isqrt n) (eq_sym E)).
    + eexists. split; [reflexivity|]. simpl. auto.
Qed.

Lemma update_dimension_label_perfect_square_witness :
  (exists a', update_dimension_label sample_fs "pics" fresh_app = Ok a'
     /\ dimension a' = Bound (Some 2) /\ create_button_enabled a' = true)
  /\ (exists a', update_dimension_label sample_fs "five" fresh_app = Ok a'
        /\ dimension a' = Bound None /\ create_button_enabled a' = false
        /\ final_size_label a' = "Final collage size: Unknown").
Proof.
  split.
  - refine (proj2 (proj1 (update_dimension_label_perfect_square
      sample_fs "pics" fresh_app
      ["a.jpg"; "notes.txt"; "b.PNG"; "c.gif"; "d.webp"] _ _) 2 _ _)).
    + vm_compute. reflexivity.
    + vm_compute. discriminate.
    + lia.
    + vm_compute. reflexivity.
  - refine (proj2 (update_dimension_label_perfect_square
      sample_fs "five" fresh_app
      ["1.jpg"; "2.jpg"; "3.jpg"; "4.jpg"; "5.jpg"] _ _) _).
    + vm_compute. reflexivity.
    + vm_compute. discriminate.
    + intros d. change (Z.of_nat (length (image_set _))) with 5. intros H.
      assert (Hd : -3 < d < 3) by nia.
      assert (Hc : d = -2 \/ d = -1 \/ d = 0 \/ d = 1 \/ d = 2) by lia.
      destruct Hc as [-> | [-> | [-> | [-> | ->]]]]; discriminate H.
Defined.

(** C2. When the folder has no recognized image, [update_dimension_label]
    reports that no images were found (and not that the count is no
    perfect square), disables collage generation and leaves no grid
    dimension set. *)
Theorem update_dimension_label_no_images
  (fs : FileSystem) (folder : string) (a : App) (entries : list string)
  (Hdir : dirs fs !! folder = Some entries)
  (Hn : length (image_set entries) = 0%nat) :
  exists a', update_dimension_label fs folder a = Ok a'
    /\ dimension_label a' =
         "No images found in this folder. Please select a different folder."
    /\ dimension_label a' <>
         "Cannot use this folder. " +:+ Py.str 0
           +:+ " images found, which is not a perfect square."
    /\ create_button_enabled a' = false
    /\ dimension a' = Bound None
    /\ final_size_label a' = "Final collage size: Unknown".
Proof.
  unfold update_dimension_label. rewrite Hdir, Hn. simpl.
  eexists. split; [reflexivity|]. simpl. repeat split. discriminate.
Qed.

Lemma update_dimension_label_no_images_witness :
  exists a', update_dimension_label sample_fs "empty" pics_app = Ok a'
    /\ dimension_label a' =
         "No images found in this folder. Please select a different folder."
    /\ dimension_label a' <>
         "Cannot use this folder. " +:+ Py.str 0
           +:+ " images found, which is not a perfect square."
    /\ create_button_enabled a' = false
    /\ dimension a' = Bound None
    /\ final_size_label a' = "Final collage size: Unknown".
Proof.
  apply (update_dimension_label_no_images sample_fs "empty" pics_app
           ["readme.md"]); vm_compute; reflexivity.
Defined.

(* ===================================================================== *)
(** * The resolution drop-down                                            *)
(* ===================================================================== *)

Lemma update_dimension_label_total
  (fs : FileSystem) (folder : string) (a : App) :
  is_Some (dirs fs !! folder) ->
  exists a', update_dimension_label fs folder a = Ok a'
    /\ size_dropdown a' = size_dropdown a
    /\ generated_collage a' = generated_collage a
    /\ preview_label a' = preview_label a.
Proof.
  intros [entries Hdir]. unfold update_dimension_label. rewrite Hdir. cbv zeta.
  destruct (_ =? 0); [eexists; split; [reflexivity | simpl; auto]|].
  destruct (_ =? _); [|eexists; split; [reflexivity | simpl; auto]].
  edestruct update_final_size_label_bound as [text ->]; [reflexivity|].
  eexists; split; [reflexivity | simpl; auto].
Qed.

Lemma init_keeps_dropdown (fs : FileSystem) (pictures : string) (a : App) :
  init fs pictures = Ok a -> size_dropdown a = setup_resolution.
Proof.
  unfold init, check_default_folder. destruct (isdir fs _).
  - intros Hupd.
    destruct (dirs fs !! folder_path
                (set_generated_collage None (init_ui pictures))) eqn:Hdir.
    + destruct (update_dimension_label_total fs
                  (folder_path (set_generated_collage None (init_ui pictures)))
                  (set_generated_collage None (init_ui pictures)))
        as (a' & Ha & Hsize & _); [rewrite Hdir; eauto|].
      rewrite Ha in Hupd. injection Hupd as <-. exact Hsize.
    + unfold update_dimension_label in Hupd. rewrite Hdir in Hupd.
      discriminate.
  - intros [= <-]. reflexivity.
Qed.

(** C8. On every start of the application that [__init__] completes, the
    resolution drop-down holds exactly the texts of 100, 200, ..., 1000, so
    the tile sizes that can be selected are the multiples [100 * k] with
    [1 <= k <= 10], and the selected one is 400. *)
Theorem resolution_choices (fs : FileSystem) (pictures : string) (a : App)
  (Hinit : init fs pictures = Ok a) :
  items (size_dropdown a) =
    map Py.str [100; 200; 300; 400; 500; 600; 700; 800; 900; 1000]
  /\ (forall t, (exists s, s ∈ items (size_dropdown a) /\ Py.int s = Some t)
                <-> (exists k, 1 <= k <= 10 /\ t = 100 * k))
  /\ currentText (size_dropdown a) = "400"
  /\ Py.int (currentText (size_dropdown a)) = Some 400.
Proof.
  rewrite (init_keeps_dropdown fs pictures a Hinit).
  split; [reflexivity|]. split; [|split; reflexivity].
  intros t. change (items setup_resolution)
    with ["100"; "200"; "300"; "400"; "500"; "600"; "700"; "800"; "900"; "1000"].
  split.
  - intros (s & Hs & Hint). rewrite !elem_of_cons, elem_of_nil in Hs.
    repeat (destruct Hs as [-> | Hs];
            [vm_compute in Hint; injection Hint as <-;
             match goal with
             | |- exists k, _ /\ ?t = _ =>
                 exists (t / 100); split; [vm_compute; split; discriminate
                                          | reflexivity]
             end |]).
    contradiction.
  - intros (k & Hk & ->).
    assert (Hc : k = 1 \/ k = 2 \/ k = 3 \/ k = 4 \/ k = 5 \/ k = 6 \/ k = 7
                 \/ k = 8 \/ k = 9 \/ k = 10) by lia.
    exists (Py.str (100 * k)).
    destruct Hc as [-> | [-> | [-> | [-> | [-> | [-> | [-> | [-> | [-> | ->]]]]]]]]];
      (split; [|reflexivity]; apply list_elem_of_In; vm_compute;
       repeat first [left; reflexivity | right]).
Qed.

Lemma resolution_choices_witness :
  items (size_dropdown fresh_app) =
    map Py.str [100; 200; 300; 400; 500; 600; 700; 800; 900; 1000]
  /\ currentText (size_dropdown fresh_app) = "400"
  /\ Py.int (currentText (size_dropdown fresh_app)) = Some 400.
Proof.
  destruct (resolution_choices sample_fs "home" fresh_app eq_refl)
    as (Hitems & _ & Htext & Hint).
  split; [exact Hitems|]. split; [exact Htext | exact Hint].
Defined.

(* ===================================================================== *)
(** * Saving                                                              *)
(* ===================================================================== *)

(** C10. With no collage generated yet ([generated_collage] is [None]),
    [save_collage] shows the error box and does nothing else: the file
    system is the one it started from and no field of the window other
    than the list of dialogs changes, whatever the output path. *)
Theorem save_collage_without_collage
  (lib : Library) (fs : FileSystem) (a : App)
  (Hnone : generated_collage a = None) :
  exists a', save_collage lib fs a = (fs, a')
    /\ a' = message_box Critical "Error"
              "No collage to save. Generate a preview first." a
    /\ dialogs a' =
         mkBox Critical "Error" "No collage to save. Generate a preview first."
         :: dialogs a
    /\ generated_collage a' = None
    /\ preview_label a' = preview_label a
    /\ output_path a' = output_path a
    /\ folder_path a' = folder_path a
    /\ dimension a' = dimension a.
Proof.
  unfold save_collage. rewrite Hnone. eexists. split; [reflexivity|].
  simpl. rewrite Hnone. repeat split.
Qed.

Lemma save_collage_without_collage_witness :
  exists a', save_collage sample_lib sample_fs pics_app = (sample_fs, a')
    /\ a' = message_box Critical "Error"
              "No collage to save. Generate a preview first." pics_app
    /\ dialogs a' =
         mkBox Critical "Error" "No collage to save. Generate a preview first."
         :: dialogs pics_app
    /\ generated_collage a' = None
    /\ preview_label a' = preview_label pics_app
    /\ output_path a' = output_path pics_app
    /\ folder_path a' = folder_path pics_app
    /\ dimension a' = dimension pics_app.
Proof.
  apply (save_collage_without_collage sample_lib sample_fs pics_app).
  reflexivity.
Defined.

(* ===================================================================== *)
(** * The collage builder: size and placement                             *)
(* ===================================================================== *)

Lemma place_tiles_size (tiles : list Image) (k t d : Z) (canvas : Image) :
  Img.size (place_tiles tiles k t d canvas) = Img.size canvas.
Proof.
  revert k canvas. induction tiles as [|tile rest IH]; intros k canvas; simpl;
    [reflexivity | now rewrite IH].
Qed.

Section Tiles.

Variables t d : Z.
Hypothesis Ht : 0 < t.
Hypothesis Hd : 0 < d.

Lemma box_unique (k m x y : Z) : in_box t d k x y -> in_box t d m x y -> k = m.
Proof.
  intros [Hkx Hky] [Hmx Hmy].
  assert (Hcol : k mod d = m mod d) by nia.
  assert (Hrow : k / d = m / d) by nia.
  rewrite (Z.div_mod k d), (Z.div_mod m d) by lia. congruence.
Qed.

Lemma inside_tile_box (tile : Image) (k x y : Z) :
  square_tile t tile ->
  inside tile (x - (k mod d) * t) (y - (k / d) * t) = true <-> in_box t d k x y.
Proof.
  intros [Hw Hh]. unfold inside, in_box. rewrite Hw, Hh.
  rewrite !andb_true_iff, !Z.leb_le, !Z.ltb_lt. lia.
Qed.

Lemma place_tiles_outside (tiles : list Image) (k : Z) (canvas : Image)
  (x y : Z) :
  Forall (square_tile t) tiles ->
  (forall m, k <= m < k + Z.of_nat (length tiles) -> ~ in_box t d m x y) ->
  pixel (place_tiles tiles k t d canvas) x y = pixel canvas x y.
Proof.
  intros Hsq. revert k canvas.
  induction Hsq as [|tile rest Htile _ IH]; intros k canvas Hout;
    [reflexivity|].
  simpl place_tiles. rewrite IH.
  - simpl. destruct (inside tile _ _) eqn:E; [|now rewrite andb_false_r].
    exfalso. apply (Hout k); [simpl length; lia|].
    now apply (inside_tile_box tile).
  - intros m Hm. apply Hout. simpl length. lia.
Qed.

Lemma place_tiles_pixel (tiles : list Image) (k : Z) (canvas : Image)
  (n : nat) (tile : Image) (i j : Z) :
  Forall (square_tile t) tiles ->
  0 <= k -> k + Z.of_nat (length tiles) <= d * d ->
  Img.size canvas = (d * t, d * t) ->
  tiles !! n = Some tile ->
  0 <= i < t -> 0 <= j < t ->
  let k' := k + Z.of_nat n in
  pixel (place_tiles tiles k t d canvas)
        ((k' mod d) * t + i) ((k' / d) * t + j) = pixel tile i j.
Proof.
  intros Hsq. revert k canvas n.
  induction Hsq as [|first rest Hfirst Hrest IH];
    intros k canvas n Hk Hlen Hsize Hn Hi Hj; [discriminate|].
  simpl length in Hlen. destruct n as [|n]; simpl in Hn.
  - injection Hn as ->. cbv zeta. rewrite Z.add_0_r. simpl place_tiles.
    assert (Hbox : in_box t d k ((k mod d) * t + i) ((k / d) * t + j))
      by (unfold in_box; lia).
    rewrite place_tiles_outside; [|exact Hrest|].
    + simpl. injection Hsize as Hw Hh.
      assert (Hcol : 0 <= k mod d < d) by (apply Z.mod_pos_bound; lia).
      assert (Hrow : 0 <= k / d < d).
      { split; [apply Z.div_pos; lia|].
        apply Z.div_lt_upper_bound; lia. }
      assert (Hin : inside canvas ((k mod d) * t + i) ((k / d) * t + j) = true).
      { unfold inside. rewrite Hw, Hh.
        rewrite !andb_true_iff, !Z.leb_le, !Z.ltb_lt. nia. }
      rewrite Hin. apply (inside_tile_box tile k) in Hbox; [|exact Hfirst].
      rewrite Hbox. simpl. f_equal; lia.
    + intros m Hm Hbox'. pose proof (box_unique _ _ _ _ Hbox Hbox'). lia.
  - cbv zeta. replace (k + Z.of_nat (S n)) with ((k + 1) + Z.of_nat n) by lia.
    simpl place_tiles. apply IH; try assumption; lia.
Qed.

End Tiles.

Lemma load_all_lookup (fs : FileSystem) (folder : string)
  (names : list string) (imgs : list Image) :
  load_all fs folder names = Ok imgs ->
  length imgs = length names
  /\ forall n name, names !! n = Some name ->
       exists im, open_image fs (Path.join folder name) = Some im
                  /\ imgs !! n = Some im.
Proof.
  revert imgs. induction names as [|f rest IH]; intros imgs H; simpl in H.
  - injection H as <-. split; [reflexivity | intros n name Hn; discriminate].
  - destruct (open_image fs (Path.join folder f)) as [im|] eqn:E;
      [|discriminate].
    destruct (load_all fs folder rest) as [imgs'|e]; simpl in H;
      [|discriminate].
    injection H as <-. destruct (IH imgs' eq_refl) as [Hlen Hall].
    split; [simpl; now rewrite Hlen|].
    intros [|n] name Hn; simpl in Hn.
    + injection Hn as <-. eauto.
    + apply Hall, Hn.
Qed.

Lemma load_all_fails (fs : FileSystem) (folder : string)
  (names : list string) :
  (exists f, f ∈ names /\ open_image fs (Path.join folder f) = None) ->
  exists f, load_all fs folder names = Raise (ImageLoadError f)
            /\ f ∈ names /\ open_image fs (Path.join folder f) = None.
Proof.
  induction names as [|g rest IH]; intros (f & Hin & Hf).
  - apply elem_of_nil in Hin as [].
  - simpl. destruct (open_image fs (Path.join folder g)) as [im|] eqn:E.
    + apply elem_of_cons in Hin as [-> | Hin]; [congruence|].
      destruct IH as (f' & -> & Hin' & Hf'); [eauto|].
      exists f'. split; [reflexivity|]. split; [now apply list_elem_of_further | exact Hf'].
    + exists g. split; [reflexivity|]. split; [apply list_elem_of_here | exact E].
Qed.

(** What a successful build went through, whichever check came first. *)
Lemma create_collage_ok (lib : Library) (order : CheckOrder)
  (fs : FileSystem) (folder : string) (t d : Z) (c : Image) :
  create_collage lib order fs folder t d = Ok c ->
  exists entries imgs,
    dirs fs !! folder = Some entries
    /\ Z.of_nat (length (image_set entries)) = d * d
    /\ load_all fs folder (image_set entries) = Ok imgs
    /\ c = place_tiles (map (fun im => resize lib im t) imgs) 0 t d
             (Img.new (d * t) (d * t)).
Proof.
  unfold create_collage. destruct (dirs fs !! folder) as [entries|];
    [|discriminate].
  intros H. exists entries. unfold check_count in H.
  destruct order; simpl in H.
  - destruct (Z.eqb_spec (Z.of_nat (length (image_set entries))) (d * d));
      simpl in H; [|discriminate].
    destruct (load_all fs folder (image_set entries)) as [imgs|];
      simpl in H; [|discriminate].
    injection H as <-. eauto.
  - destruct (load_all fs folder (image_set entries)) as [imgs|];
      simpl in H; [|discriminate].
    destruct (Z.eqb_spec (Z.of_nat (length (image_set entries))) (d * d));
      simpl in H; [|discriminate].
    injection H as <-. eauto.
Qed.

Lemma create_collage_size (lib : Library) (order : CheckOrder)
  (fs : FileSystem) (folder : string) (t d : Z) (c : Image) :
  create_collage lib order fs folder t d = Ok c ->
  Img.size c = (d * t, d * t).
Proof.
  intros H. apply create_collage_ok in H as (entries & imgs & _ & _ & _ & ->).
  now rewrite place_tiles_size.
Qed.

Lemma load_all_cases (fs : FileSystem) (folder : string)
  (names : list string) :
  (exists imgs, load_all fs folder names = Ok imgs
     /\ ~ (exists f, f ∈ names /\ open_image fs (Path.join folder f) = None))
  \/ (exists f, load_all fs folder names = Raise (ImageLoadError f)
        /\ f ∈ names /\ open_image fs (Path.join folder f) = None).
Proof.
  destruct (load_all fs folder names) as [imgs|e] eqn:E.
  - left. exists imgs. split; [reflexivity|]. intros (f & Hin & Hf).
    apply list_elem_of_lookup in Hin as [n Hn].
    destruct (load_all_lookup _ _ _ _ E) as [_ Hall].
    destruct (Hall n f Hn) as (im & Him & _). congruence.
  - right. assert (Hbad : exists f, f ∈ names
                     /\ open_image fs (Path.join folder f) = None).
    { revert e E. induction names as [|g rest IH]; intros e E; simpl in E;
        [discriminate|].
      destruct (open_image fs (Path.join folder g)) as [im|] eqn:Eg.
      - destruct (load_all fs folder rest) as [imgs|e']; simpl in E;
          [discriminate|].
        destruct (IH e' eq_refl) as (f & Hin & Hf).
        exists f. split; [now apply list_elem_of_further | exact Hf].
      - exists g. split; [apply list_elem_of_here | exact Eg]. }
    destruct (load_all_fails fs folder names Hbad) as (f & Hload & Hin & Hf).
    exists f. rewrite <- E, Hload. auto.
Qed.

(** ** The final-size label follows the dimension and the resolution *)

Lemma label_in_sync_frame (a a' : App) :
  label_fields a' = label_fields a -> label_in_sync a -> label_in_sync a'.
Proof.
  unfold label_fields, label_in_sync. intros [= Hd Hs Hl] H d t.
  rewrite Hd, Hs, Hl. apply H.
Qed.

Lemma update_final_size_label_sync (a a' : App) :
  update_final_size_label a = Ok a' -> label_in_sync a'.
Proof.
  unfold update_final_size_label, label_in_sync.
  destruct (dimension a) as [|[d|]] eqn:Hd; [discriminate | |].
  - destruct (Py.int (currentText (size_dropdown a))) as [t|] eqn:Ht;
      intros [= <-] d' t'; simpl; rewrite Hd, Ht; [|discriminate].
    now intros [= <-] [= <-].
  - intros [= <-] d' t'. rewrite Hd. discriminate.
Qed.

Lemma update_dimension_label_sync (fs : FileSystem) (folder : string)
  (a a' : App) :
  update_dimension_label fs folder a = Ok a' -> label_in_sync a'.
Proof.
  unfold update_dimension_label. destruct (dirs fs !! folder); [|discriminate].
  cbv zeta. destruct (_ =? 0).
  - intros [= <-] d t. simpl. discriminate.
  - destruct (_ =? _).
    + destruct (update_final_size_label _) as [a2|] eqn:E; [|discriminate].
      simpl. intros [= <-]. apply update_final_size_label_sync in E.
      revert E. now apply label_in_sync_frame.
    + intros [= <-] d t. simpl. discriminate.
Qed.

Lemma preview_collage_label_fields (fs : FileSystem) (a a' : App) :
  preview_collage fs a = Ok a' -> label_fields a' = label_fields a.
Proof.
  unfold preview_collage. destruct (negb _); [intros [= <-]; reflexivity|].
  destruct (dimension a) as [|[d|]]; [discriminate | |].
  - destruct (Py.int _); [intros [= <-]; reflexivity | discriminate].
  - intros [= <-]; reflexivity.
Qed.

Lemma save_collage_label_fields (lib : Library) (fs : FileSystem) (a : App) :
  label_fields (snd (save_collage lib fs a)) = label_fields a.
Proof.
  unfold save_collage. destruct (generated_collage a); [|reflexivity].
  destruct (save lib fs _ _ _) as [fs' [u|e]]; reflexivity.
Qed.

Lemma handle_label_in_sync (lib : Library)
  (builder : FileSystem -> string -> Z -> Z -> outcome Image)
  (fs fs' : FileSystem) (a a' : App) (ev : Event) :
  handle lib builder fs a ev = Ok (fs', a') ->
  label_in_sync a -> label_in_sync a'.
Proof.
  intros Hstep Ha.
  destruct ev; simpl in Hstep;
    try (injection Hstep as <- <-; exact Ha).
  - unfold browse_folder in Hstep. destruct (String.eqb folder_selected "").
    + injection Hstep as <- <-. exact Ha.
    + destruct (update_dimension_label fs folder_selected _) eqn:E;
        [|discriminate].
      injection Hstep as <- <-. eauto using update_dimension_label_sync.
  - unfold browse_output_path in Hstep.
    destruct (String.eqb file_selected ""); injection Hstep as <- <-;
      exact Ha.
  - unfold choose_size in Hstep. destruct (_ =? _).
    + injection Hstep as <- <-. exact Ha.
    + destruct (update_final_size_label _) eqn:E; [|discriminate].
      injection Hstep as <- <-. eauto using update_final_size_label_sync.
  - destruct (create_button_enabled a).
    + destruct (preview_collage fs a) eqn:E; [|discriminate].
      injection Hstep as <- <-.
      apply preview_collage_label_fields in E.
      eauto using label_in_sync_frame.
    + injection Hstep as <- <-. exact Ha.
  - destruct (worker a) as [w|]; injection Hstep as <- <-; [|exact Ha].
    destruct (run builder fs w); exact Ha.
  - destruct (save_button_enabled a).
    + injection Hstep as Hsave.
      pose proof (save_collage_label_fields lib fs a) as Hframe.
      rewrite Hsave in Hframe. eauto using label_in_sync_frame.
    + injection Hstep as <- <-. exact Ha.
Qed.

Lemma reachable_label_in_sync (lib : Library)
  (builder : FileSystem -> string -> Z -> Z -> outcome Image) (a : App) :
  reachable lib builder a -> label_in_sync a.
Proof.
  induction 1 as [fs pictures a Hinit | fs a ev fs' a' _ IH Hstep].
  - unfold init, check_default_folder in Hinit. destruct (isdir fs _).
    + eauto using update_dimension_label_sync.
    + injection Hinit as <-. intros d t. discriminate.
  - eauto using handle_label_in_sync.
Qed.

(** C3. A build that succeeds for grid dimension [d] and tile size [t]
    returns an image of exactly [(d*t)] x [(d*t)] pixels.  In every state
    the window can be in, the worker that [preview_collage] starts gets
    the window's dimension and the selected resolution, and the width and
    height of the collage it produces are the two numbers the final-size
    label shows, [size_value * dimension] as [update_final_size_label]
    computes it. *)
Theorem collage_size_as_advertised
  (lib : Library) (order : CheckOrder) (fs : FileSystem) (a : App) (d t : Z)
  (Hreach : reachable lib (create_collage lib order) a)
  (Hdim : dimension a = Bound (Some d))
  (Hsize : Py.int (currentText (size_dropdown a)) = Some t)
  (Hfolder : path_exists fs (folder_path a) = true) :
  (forall folder c, create_collage lib order fs folder t d = Ok c ->
     Img.size c = (d * t, d * t))
  /\ preview_collage fs a
     = Ok (set_worker (Some (mkWorker (folder_path a) t d)) a)
  /\ forall c,
       run (create_collage lib order) fs (mkWorker (folder_path a) t d)
       = collage_created c ->
       Img.size c = (t * d, t * d)
       /\ final_size_label a
          = "Final collage size: " +:+ Py.str (width c) +:+ " x "
            +:+ Py.str (height c)
       /\ update_final_size_label a = Ok a.
Proof.
  split; [|split].
  - intros folder c. apply create_collage_size.
  - unfold preview_collage. now rewrite Hfolder, Hdim, Hsize.
  - intros c. unfold run. simpl.
    destruct (create_collage lib order fs (folder_path a) t d) as [c'|e] eqn:E;
      [|discriminate].
    intros H. injection H as ->. apply create_collage_size in E.
    injection E as Hw Hh. unfold Img.size.
    pose proof (reachable_label_in_sync _ _ _ Hreach d t Hdim Hsize) as Hlabel.
    rewrite Hw, Hh, (Z.mul_comm d t). split; [reflexivity|].
    split; [exact Hlabel|].
    unfold update_final_size_label. rewrite Hdim, Hsize, <- Hlabel.
    now destruct a.
Qed.

Lemma collage_size_as_advertised_witness :
  exists a c,
    handle sample_lib (create_collage sample_lib CountThenLoad) sample_fs
      fresh_app (BrowseFolder "pics") = Ok (sample_fs, a)
    /\ run (create_collage sample_lib CountThenLoad) sample_fs
         (mkWorker "pics" 400 2) = collage_created c
    /\ Img.size c = (800, 800)
    /\ final_size_label a = "Final collage size: 800 x 800".
Proof.
  eexists. eexists. split; [reflexivity|]. split; [reflexivity|].
  match goal with
  | |- Img.size _ = _ /\ final_size_label ?a = _ =>
      destruct (collage_size_as_advertised sample_lib CountThenLoad sample_fs
                  a 2 400) as (_ & _ & H)
  end.
  - eapply reach_step with (fs := sample_fs) (ev := BrowseFolder "pics").
    + apply reach_init with (fs := sample_fs) (pictures := "home").
      reflexivity.
    + reflexivity.
  - reflexivity.
  - reflexivity.
  - reflexivity.
  - destruct (H _ eq_refl) as (Hs & Hl & _). split; [exact Hs|].
    rewrite Hl. reflexivity.
Defined.

(** C4. In a successful build with positive tile size [t] and dimension
    [d], the file at index [k] of the enumeration, stretched to [t] x [t],
    fills exactly the square of the canvas whose upper left corner is
    [((k mod d) * t, (k / d) * t)] and whose side is [t]: every pixel
    [(i, j)] of the tile is the canvas pixel at that corner plus [(i, j)],
    and the square lies inside the canvas. *)
Theorem tiles_row_major
  (lib : Library) (order : CheckOrder) (fs : FileSystem) (folder : string)
  (t d : Z) (c : Image) (entries : list string)
  (Hbuild : create_collage lib order fs folder t d = Ok c)
  (Hdir : dirs fs !! folder = Some entries)
  (Ht : 0 < t) (Hd : 0 < d)
  (k : nat) (name : string)
  (Hk : image_set entries !! k = Some name) :
  let col := Z.of_nat k mod d in
  let row := Z.of_nat k / d in
  exists im, open_image fs (Path.join folder name) = Some im
    /\ 0 <= col < d /\ 0 <= row < d
    /\ forall i j, 0 <= i < t -> 0 <= j < t ->
         inside c (col * t + i) (row * t + j) = true
         /\ pixel c (col * t + i) (row * t + j) = pixel (resize lib im t) i j.
Proof.
  intros col row.
  apply create_collage_ok in Hbuild
    as (entries' & imgs & Hdir' & Hcount & Hload & ->).
  rewrite Hdir in Hdir'. injection Hdir' as <-.
  destruct (load_all_lookup _ _ _ _ Hload) as [Hlen Hall].
  destruct (Hall k name Hk) as (im & Him & Hkim).
  exists im. split; [exact Him|].
  assert (Hklt : Z.of_nat k < d * d).
  { apply lookup_lt_Some in Hk. lia. }
  assert (Hcol : 0 <= col < d) by (apply Z.mod_pos_bound; lia).
  assert (Hrow : 0 <= row < d).
  { split; [apply Z.div_pos; lia | apply Z.div_lt_upper_bound; lia]. }
  split; [exact Hcol|]. split; [exact Hrow|]. intros i j Hi Hj. split.
  - unfold inside. pose proof (place_tiles_size
      (map (fun im => resize lib im t) imgs) 0 t d (Img.new (d * t) (d * t)))
      as Hs.
    injection Hs as Hw Hh. rewrite Hw, Hh. simpl.
    rewrite !andb_true_iff, !Z.leb_le, !Z.ltb_lt. nia.
  - pose proof (place_tiles_pixel t d Ht Hd
      (map (fun im => resize lib im t) imgs) 0 (Img.new (d * t) (d * t))
      k (resize lib im t) i j) as P.
    cbv zeta in P. rewrite Z.add_0_l in P. apply P; try assumption; try lia.
    + apply Forall_forall. intros tile Hin.
      apply list_elem_of_In, in_map_iff in Hin as (x & <- & _).
      split; reflexivity.
    + rewrite length_map. lia.
    + reflexivity.
    + rewrite list_lookup_fmap, Hkim. reflexivity.
Qed.

Lemma tiles_row_major_witness :
  exists c, create_collage sample_lib CountThenLoad sample_fs "pics" 2 2 = Ok c
    /\ inside c (0 * 2 + 1) (1 * 2 + 0) = true
    /\ pixel c (0 * 2 + 1) (1 * 2 + 0) = (30, 30, 30).
Proof.
  eexists. split; [reflexivity|].
  destruct (tiles_row_major sample_lib CountThenLoad sample_fs "pics" 2 2 _
              ["a.jpg"; "notes.txt"; "b.PNG"; "c.gif"; "d.webp"]
              eq_refl eq_refl ltac:(lia) ltac:(lia) 2%nat "c.gif" eq_refl)
    as (im & Him & _ & _ & Hpix).
  vm_compute in Him. injection Him as <-.
  destruct (Hpix 1 0 ltac:(lia) ltac:(lia)) as [Hin Hp].
  split; [exact Hin|].
  transitivity (pixel (resize sample_lib (solid 30) 2) 1 0);
    [exact Hp | reflexivity].
Defined.

(* ===================================================================== *)
(** * Failures of the builder                                             *)
(* ===================================================================== *)

(** C5. When some recognized file of the folder cannot be decoded or the
    number of recognized files is not [d*d], the build fails with
    [ImageLoadError] or [CountMismatch], the worker emits [error_occurred]
    and no collage; the failure is [ImageLoadError] (for a file that
    cannot be decoded) when the count is right, [CountMismatch] when every
    file can be decoded, and when both conditions hold it is the failure
    of the check that is made first. *)
Theorem builder_failures
  (lib : Library) (order : CheckOrder) (fs : FileSystem) (folder : string)
  (entries : list string) (t d : Z)
  (Hdir : dirs fs !! folder = Some entries) :
  let names := image_set entries in
  let undecodable :=
    exists f, f ∈ names /\ open_image fs (Path.join folder f) = None in
  let mismatch := Z.of_nat (length names) <> d * d in
  let result := create_collage lib order fs folder t d in
  (undecodable \/ mismatch ->
     exists e, result = Raise e
       /\ (e = CountMismatch \/ exists f, e = ImageLoadError f)
       /\ run (create_collage lib order) fs (mkWorker folder t d) = error_occurred (exn_str e))
  /\ (undecodable -> ~ mismatch ->
        exists f, result = Raise (ImageLoadError f)
          /\ f ∈ names /\ open_image fs (Path.join folder f) = None)
  /\ (mismatch -> ~ undecodable -> result = Raise CountMismatch)
  /\ (undecodable -> mismatch ->
        match order with
        | CountThenLoad => result = Raise CountMismatch
        | LoadThenCount => exists f, result = Raise (ImageLoadError f)
        end).
Proof.
  intros names undecodable mismatch result.
  assert (Hres : result =
    match order with
    | CountThenLoad =>
        if Z.of_nat (length names) =? d * d
        then match load_all fs folder names with
             | Ok imgs => Ok (place_tiles (map (fun im => resize lib im t) imgs)
                                0 t d (Img.new (d * t) (d * t)))
             | Raise e => Raise e
             end
        else Raise CountMismatch
    | LoadThenCount =>
        match load_all fs folder names with
        | Ok imgs =>
            if Z.of_nat (length names) =? d * d
            then Ok (place_tiles (map (fun im => resize lib im t) imgs)
                       0 t d (Img.new (d * t) (d * t)))
            else Raise CountMismatch
        | Raise e => Raise e
        end
    end).
  { unfold result, create_collage, check_count. rewrite Hdir. fold names.
    destruct order; simpl.
    - destruct (_ =? _); simpl; [|reflexivity].
      destruct (load_all fs folder names); reflexivity.
    - destruct (load_all fs folder names); simpl; [|reflexivity].
      destruct (_ =? _); reflexivity. }
  assert (Hrun : forall e, result = Raise e ->
            run (create_collage lib order) fs (mkWorker folder t d) = error_occurred (exn_str e)).
  { intros e He. unfold run. simpl. fold result. now rewrite He. }
  clearbody result. subst result.
  destruct (load_all_cases fs folder names)
    as [(imgs & Hload & Hgood) | (f & Hload & Hin & Hf)];
    destruct (Z.eqb_spec (Z.of_nat (length names)) (d * d)) as [Hcount|Hcount];
    rewrite Hload in *; destruct order;
    (split; [|split; [|split]]);
    try (intros [Hu | Hm]); try (intros Hu Hm);
    try contradiction;
    try (exfalso; apply Hm; exists f; now split);
    try (exfalso; apply Hu; exists f; now split);
    eauto 10.
Qed.

Lemma builder_failures_witness :
  (exists f, create_collage sample_lib LoadThenCount sample_fs "bad" 100 1
             = Raise (ImageLoadError f))
  /\ create_collage sample_lib LoadThenCount sample_fs "pics" 100 3
     = Raise CountMismatch.
Proof.
  split.
  - destruct (builder_failures sample_lib LoadThenCount sample_fs "bad"
                ["x.jpg"] 100 1 eq_refl) as (_ & H & _).
    destruct H as (f & Hf & _).
    + exists "x.jpg". split; [apply list_elem_of_here | reflexivity].
    + intros Hm. apply Hm. reflexivity.
    + exists f. exact Hf.
  - destruct (builder_failures sample_lib LoadThenCount sample_fs "pics"
                ["a.jpg"; "notes.txt"; "b.PNG"; "c.gif"; "d.webp"] 100 3
                eq_refl)
      as (_ & _ & H & _).
    apply H.
    + vm_compute. discriminate.
    + intros (f & Hin & Hf).
      apply list_elem_of_In in Hin. vm_compute in Hin.
      repeat (destruct Hin as [<- | Hin]; [vm_compute in Hf; discriminate Hf|]).
      contradiction.
Defined.

(* ===================================================================== *)
(** * Saving a collage                                                    *)
(* ===================================================================== *)

Lemma can_open_for_write_false (fs : FileSystem) (path : string) :
  (Path.dirname path <> "" /\ isdir fs (Path.dirname path) = false)
  \/ isdir fs path = true \/ path ∈ read_only fs ->
  can_open_for_write fs path = false.
Proof.
  unfold can_open_for_write, parent_exists.
  intros [[Hname Hdir] | [Hisdir | Hro]].
  - apply String.eqb_neq in Hname. now rewrite Hname, Hdir.
  - rewrite Hisdir. simpl. now rewrite andb_false_r.
  - rewrite (bool_decide_eq_true_2 _ Hro). simpl. apply andb_false_r.
Qed.

Lemma files_write_file (fs : FileSystem) (path : string) (c : FileContent) :
  files (write_file fs path c) !! path = Some c.
Proof. simpl. apply lookup_insert_eq. Qed.

Lemma files_spoil_file (fs : FileSystem) (path q : string) :
  q <> path -> files (spoil_file fs path) !! q = files fs !! q.
Proof.
  intros Hq. unfold spoil_file. destruct (bool_decide _); [|reflexivity].
  simpl. now apply lookup_insert_ne.
Qed.

(** C6, as the specification words it, fails: saved to a path that ends
    in [.png], the collage is written as a PNG file. *)
Lemma save_png_not_jpeg : ~ save_always_jpeg sample_lib.
Proof.
  intros H.
  destruct (H sample_fs (saving_app "out/c.png") (Img.new 4 4)
              eq_refl eq_refl) as (stored & Hfile & _).
  vm_compute in Hfile. discriminate Hfile.
Qed.

(** C6, amended. [save_collage] on a generated collage writes the image in
    the format registered for the output path's extension (so JPEG for a
    path such as the default [collage.jpg]), with the collage's pixel
    dimensions and the resolution tag of that format for 300 x 300 dpi,
    which for JPEG is exactly 300 x 300, provided the codec accepts the
    image.  When no format is registered for the extension, or the path
    cannot be opened for writing (the directory it names does not exist,
    it is a directory itself, or it is not writable), it shows the error
    and writes nothing; when the codec refuses the image after the file was
    opened, it shows the codec's error and no other file is touched.  In
    every case the collage in memory stays as it was. *)
Theorem save_collage_by_extension
  (lib : Library) (fs : FileSystem) (a : App) (collage : Image)
  (Hcollage : generated_collage a = Some collage) :
  let path := output_path a in
  let ext := Py.lower (Path.splitext_ext path) in
  let result := save_collage lib fs a in
  generated_collage (snd result) = Some collage
  /\ (forall fmt,
        registry lib ext = Some fmt -> can_open_for_write fs path = true ->
        encoder_error lib fmt collage = None ->
        exists stored,
          files (fst result) !! path
          = Some (ImageData fmt stored (embedded_dpi lib fmt (300, 300)))
          /\ Img.size stored = Img.size collage
          /\ (fmt = JPEG -> embedded_dpi lib fmt (300, 300) = Some (300, 300))
          /\ snd result
             = message_box Information "Success"
                 ("Collage saved to " +:+ path +:+ "!") a)
  /\ (registry lib ext = None ->
        result = (fs, message_box Critical "Error"
                        ("unknown file extension: " +:+ ext) a))
  /\ (forall fmt,
        registry lib ext = Some fmt -> can_open_for_write fs path = false ->
        result = (fs, message_box Critical "Error"
                        (exn_str (OSError path)) a))
  /\ ((Path.dirname path <> "" /\ isdir fs (Path.dirname path) = false)
      \/ isdir fs path = true \/ path ∈ read_only fs ->
        can_open_for_write fs path = false)
  /\ (forall fmt message,
        registry lib ext = Some fmt -> can_open_for_write fs path = true ->
        encoder_error lib fmt collage = Some message ->
        snd result = message_box Critical "Error" message a
        /\ forall q, q <> path -> files (fst result) !! q = files fs !! q).
Proof.
  intros path ext result. subst result.
  unfold save_collage, save. rewrite Hcollage. fold path ext.
  split; [|split; [|split; [|split; [|split]]]].
  - destruct (registry lib ext) as [fmt|]; [|exact Hcollage].
    destruct (can_open_for_write fs path); [|exact Hcollage].
    destruct (encoder_error lib fmt collage); exact Hcollage.
  - intros fmt -> -> ->. simpl fst. simpl snd.
    eexists. split; [apply files_write_file|].
    split; [reflexivity|]. split; [now intros ->|reflexivity].
  - now intros ->.
  - now intros fmt -> ->.
  - apply can_open_for_write_false.
  - intros fmt message -> -> ->. simpl fst. simpl snd.
    split; [reflexivity|]. intros q Hq. now apply files_spoil_file.
Qed.

Lemma save_collage_by_extension_witness :
  (exists stored,
     files (fst (save_collage sample_lib sample_fs (saving_app "c.JPG")))
       !! "c.JPG"
     = Some (ImageData JPEG stored (Some (300, 300)))
     /\ Img.size stored = (4, 4))
  /\ save_collage sample_lib sample_fs (saving_app "out/locked.jpg")
     = (sample_fs, message_box Critical "Error"
                     (exn_str (OSError "out/locked.jpg"))
                     (saving_app "out/locked.jpg"))
  /\ save_collage sample_lib sample_fs (saving_app "nowhere/c.jpg")
     = (sample_fs, message_box Critical "Error"
                     (exn_str (OSError "nowhere/c.jpg"))
                     (saving_app "nowhere/c.jpg"))
  /\ snd (save_collage sample_lib sample_fs
            (set_generated_collage (Some (Img.new 70000 10))
               (saving_app "out/wide.jpg")))
     = message_box Critical "Error"
         "Maximum supported image dimension is 65500 pixels"
         (set_generated_collage (Some (Img.new 70000 10))
            (saving_app "out/wide.jpg")).
Proof.
  split; [|split; [|split]].
  - destruct (save_collage_by_extension sample_lib sample_fs
                (saving_app "c.JPG") (Img.new 4 4) eq_refl)
      as (_ & H & _).
    destruct (H JPEG eq_refl eq_refl eq_refl) as (stored & Hfile & Hsize & _).
    exists stored. split; [exact Hfile | exact Hsize].
  - destruct (save_collage_by_extension sample_lib sample_fs
                (saving_app "out/locked.jpg") (Img.new 4 4) eq_refl)
      as (_ & _ & _ & H & Hw & _).
    apply (H JPEG eq_refl). apply Hw. right. right.
    change ("out/locked.jpg" ∈ ({["out/locked.jpg"]} : gset string)).
    apply elem_of_singleton_2. reflexivity.
  - destruct (save_collage_by_extension sample_lib sample_fs
                (saving_app "nowhere/c.jpg") (Img.new 4 4) eq_refl)
      as (_ & _ & _ & H & Hw & _).
    apply (H JPEG eq_refl). apply Hw. left. split; [discriminate | reflexivity].
  - destruct (save_collage_by_extension sample_lib sample_fs
                (set_generated_collage (Some (Img.new 70000 10))
                   (saving_app "out/wide.jpg"))
                (Img.new 70000 10) eq_refl) as (_ & _ & _ & _ & _ & H).
    apply (H JPEG _ eq_refl eq_refl eq_refl).
Defined.

(* ===================================================================== *)
(** * The collage the window holds                                        *)
(* ===================================================================== *)

Lemma update_final_size_label_frame (a a' : App) :
  update_final_size_label a = Ok a' -> collage_state a' = collage_state a.
Proof.
  unfold update_final_size_label.
  destruct (dimension a) as [|[d|]]; [discriminate | |].
  - destruct (Py.int _); intros [= <-]; reflexivity.
  - intros [= <-]; reflexivity.
Qed.

Lemma update_dimension_label_frame (fs : FileSystem) (folder : string)
  (a a' : App) :
  update_dimension_label fs folder a = Ok a' ->
  collage_state a' = collage_state a.
Proof.
  intros H. destruct (dirs fs !! folder) as [entries|] eqn:E.
  - destruct (update_dimension_label_total fs folder a)
      as (a'' & Ha & _ & Hc & Hp); [rewrite E; eauto|].
    rewrite Ha in H. injection H as <-. unfold collage_state. congruence.
  - unfold update_dimension_label in H. rewrite E in H. discriminate.
Qed.

Lemma preview_collage_frame (fs : FileSystem) (a a' : App) :
  preview_collage fs a = Ok a' -> collage_state a' = collage_state a.
Proof.
  unfold preview_collage. destruct (negb _); [intros [= <-]; reflexivity|].
  destruct (dimension a) as [|[d|]]; [discriminate | |].
  - destruct (Py.int _); [intros [= <-]; reflexivity | discriminate].
  - intros [= <-]; reflexivity.
Qed.

Lemma save_collage_frame (lib : Library) (fs : FileSystem) (a : App) :
  collage_state (snd (save_collage lib fs a)) = collage_state a.
Proof.
  unfold save_collage. destruct (generated_collage a); [|reflexivity].
  destruct (save lib fs _ _ _) as [fs' [u|e]]; reflexivity.
Qed.

(** C9. Whatever [create_collage] is, a build in which it raises makes the
    worker emit [error_occurred] only: after it the stored collage and the
    preview are the ones from before and the error is shown.  Moreover no
    event changes the stored collage or the preview except the delivery of
    the result of a build that succeeded, which stores that build's
    collage. *)
Theorem failed_build_keeps_collage
  (lib : Library) (builder : FileSystem -> string -> Z -> Z -> outcome Image)
  (fs : FileSystem) (a : App) :
  (forall w e,
     builder fs (w_folder_path w) (w_size_value w)
       (w_dimension w) = Raise e ->
     run builder fs w = error_occurred (exn_str e)
     /\ generated_collage (build builder fs w a) = generated_collage a
     /\ preview_label (build builder fs w a) = preview_label a
     /\ dialogs (build builder fs w a)
        = mkBox Critical "Error" (exn_str e) :: dialogs a)
  /\ (forall ev fs' a',
        handle lib builder fs a ev = Ok (fs', a') ->
        collage_state a' <> collage_state a ->
        ev = WorkerResult
        /\ exists w c,
             worker a = Some w
             /\ builder fs (w_folder_path w) (w_size_value w)
                  (w_dimension w) = Ok c
             /\ generated_collage a' = Some c
             /\ preview_label a' = ScaledFrom c).
Proof.
  split.
  - intros w e He. unfold build, run. rewrite He. repeat split.
  - intros ev fs' a' Hstep Hchanged.
    destruct ev; simpl in Hstep;
      try (injection Hstep as <- <-; contradiction Hchanged; reflexivity).
    + unfold browse_folder in Hstep.
      destruct (String.eqb folder_selected "").
      * injection Hstep as <- <-. contradiction Hchanged; reflexivity.
      * destruct (update_dimension_label fs folder_selected _) eqn:E;
          [|discriminate].
        injection Hstep as <- <-.
        apply update_dimension_label_frame in E. contradiction.
    + unfold browse_output_path in Hstep.
      destruct (String.eqb file_selected "");
        injection Hstep as <- <-; contradiction Hchanged; reflexivity.
    + unfold choose_size in Hstep. destruct (_ =? _).
      * injection Hstep as <- <-. contradiction Hchanged; reflexivity.
      * destruct (update_final_size_label _) eqn:E; [|discriminate].
        injection Hstep as <- <-.
        apply update_final_size_label_frame in E. contradiction.
    + destruct (create_button_enabled a).
      * destruct (preview_collage fs a) eqn:E; [|discriminate].
        injection Hstep as <- <-.
        apply preview_collage_frame in E. contradiction.
      * injection Hstep as <- <-. contradiction Hchanged; reflexivity.
    + split; [reflexivity|].
      destruct (worker a) as [w|];
        [|injection Hstep as <- <-; contradiction Hchanged; reflexivity].
      injection Hstep as <- <-. unfold run in *.
      destruct (builder fs _ _ _) as [c|e] eqn:E.
      * exists w, c. repeat split; assumption || reflexivity.
      * contradiction Hchanged; reflexivity.
    + destruct (save_button_enabled a).
      * injection Hstep as Hsave.
        pose proof (save_collage_frame lib fs a) as Hframe.
        rewrite Hsave in Hframe. contradiction.
      * injection Hstep as <- <-. contradiction Hchanged; reflexivity.
Qed.

Lemma failed_build_keeps_collage_witness :
  generated_collage
    (build (create_collage sample_lib CountThenLoad) sample_fs (mkWorker "bad" 100 1)
       (saving_app "out/c.jpg"))
  = Some (Img.new 4 4)
  /\ preview_label
       (build (create_collage sample_lib CountThenLoad) sample_fs (mkWorker "bad" 100 1)
          (saving_app "out/c.jpg"))
     = ScaledFrom (Img.new 4 4)
  /\ exists c,
       generated_collage
         (deliver (run (create_collage sample_lib CountThenLoad) sample_fs
                     (mkWorker "pics" 100 2))
            (set_worker (Some (mkWorker "pics" 100 2)) pics_app))
       = Some c.
Proof.
  pose proof (failed_build_keeps_collage sample_lib
                (create_collage sample_lib CountThenLoad) sample_fs
                (saving_app "out/c.jpg")) as [Hfail _].
  destruct (Hfail (mkWorker "bad" 100 1) (ImageLoadError "x.jpg") eq_refl)
    as (_ & Hc & Hp & _).
  split; [exact Hc|]. split; [exact Hp|].
  pose proof (failed_build_keeps_collage sample_lib
                (create_collage sample_lib CountThenLoad) sample_fs
                (set_worker (Some (mkWorker "pics" 100 2)) pics_app))
    as [_ Honly].
  destruct (Honly WorkerResult _ _ eq_refl) as (_ & w & c & _ & _ & Hg & _).
  - unfold collage_state. simpl. discriminate.
  - exists c. exact Hg.
Defined.

(* ===================================================================== *)
(** * Folder validation: what a bound dimension means                     *)
(* ===================================================================== *)

(** Everything [update_dimension_label] does to the window, for a folder
    with [n] recognized entries. *)
Lemma update_dimension_label_fields
  (fs : FileSystem) (folder : string) (a a' : App) (entries : list string) :
  dirs fs !! folder = Some entries ->
  update_dimension_label fs folder a = Ok a' ->
  let n := Z.of_nat (length (image_set entries)) in
  size_dropdown a' = size_dropdown a
  /\ worker a' = worker a
  /\ collage_state a' = collage_state a
  /\ folder_path a' = folder_path a
  /\ output_path a' = output_path a
  /\ dialogs a' = dialogs a
  /\ save_button_enabled a' = save_button_enabled a
  /\ ((dimension a' = Bound None /\ create_button_enabled a' = false
       /\ final_size_label a' = "Final collage size: Unknown"
       /\ forall d, 0 < d -> d * d <> n)
      \/ exists d, dimension a' = Bound (Some d) /\ 0 < d /\ d * d = n
                   /\ create_button_enabled a' = true).
Proof.
  intros Hdir. unfold update_dimension_label. rewrite Hdir. cbv zeta.
  set (n := Z.of_nat (length (image_set entries))).
  destruct (Z.eqb_spec n 0) as [Hz|Hnz].
  - intros [= <-]. simpl. repeat split. left. repeat split.
    intros d Hd. nia.
  - destruct (Z.eqb_spec (Py.isqrt n * Py.isqrt n) n) as [Hsq|Hsq].
    + edestruct update_final_size_label_bound as [text ->]; [reflexivity|].
      simpl. intros [= <-]. simpl. repeat split. right.
      exists (Py.isqrt n). repeat split; [|exact Hsq].
      pose proof (Z.sqrt_nonneg n). unfold Py.isqrt in *. nia.
    + intros [= <-]. simpl. repeat split. left. repeat split.
      intros d Hd Hdd. apply Hsq. unfold Py.isqrt.
      rewrite <- Hdd, Z.sqrt_square by lia. reflexivity.
Qed.

(** X1. Whenever [update_dimension_label] leaves a grid dimension [d], [d]
    is positive and [d*d] is the number of recognized entries of the
    folder; it never leaves the dimension unbound, and it enables the
    preview button exactly when it leaves a dimension. *)
Theorem update_dimension_label_sound
  (fs : FileSystem) (folder : string) (a a' : App) (entries : list string)
  (Hdir : dirs fs !! folder = Some entries)
  (Hupd : update_dimension_label fs folder a = Ok a') :
  (forall d, dimension a' = Bound (Some d) ->
     0 < d /\ d * d = Z.of_nat (length (image_set entries)))
  /\ dimension a' <> Unset
  /\ (create_button_enabled a' = true <-> exists d, dimension a' = Bound (Some d)).
Proof.
  destruct (update_dimension_label_fields _ _ _ _ _ Hdir Hupd)
    as (_ & _ & _ & _ & _ & _ & _ & H).
  destruct H as [(Hnone & Hoff & _) | (d & Hsome & Hpos & Hsq & Hon)].
  - rewrite Hnone, Hoff. split; [discriminate|]. split; [discriminate|].
    split; [discriminate | intros [d Hd]; discriminate].
  - rewrite Hsome, Hon. split; [|split; [discriminate|]].
    + intros d' [= <-]. auto.
    + split; eauto.
Qed.

Lemma update_dimension_label_sound_witness :
  exists a', update_dimension_label sample_fs "pics" fresh_app = Ok a'
    /\ dimension a' = Bound (Some 2)
    /\ 2 * 2 = Z.of_nat (length (image_set
                 ["a.jpg"; "notes.txt"; "b.PNG"; "c.gif"; "d.webp"]))
    /\ create_button_enabled a' = true.
Proof.
  eexists. split; [reflexivity|]. split; [reflexivity|].
  match goal with
  | |- _ /\ create_button_enabled ?x = true =>
      destruct (update_dimension_label_sound sample_fs "pics" fresh_app x
                  ["a.jpg"; "notes.txt"; "b.PNG"; "c.gif"; "d.webp"]
                  eq_refl eq_refl) as (Hd & _ & Hon)
  end.
  split.
  - apply (Hd 2 eq_refl).
  - apply Hon. exists 2. reflexivity.
Defined.

Lemma image_set_length_perm (e1 e2 : list string) :
  e1 ≡ₚ e2 -> length (image_set e1) = length (image_set e2).
Proof.
  induction 1 as [|x l l' _ IH|x y l|l l' l'' _ IH1 _ IH2]; simpl.
  - reflexivity.
  - destruct (is_image x); simpl; now rewrite IH.
  - destruct (is_image x), (is_image y); reflexivity.
  - now rewrite IH1.
Qed.

Lemma image_set_idemp (entries : list string) :
  image_set (image_set entries) = image_set entries.
Proof.
  induction entries as [|f entries IH]; simpl; [reflexivity|].
  destruct (is_image f) eqn:E; simpl; [rewrite E|]; now rewrite IH.
Qed.

(** X2. The outcome of [update_dimension_label] depends on the folder
    only through the number of its recognized entries: two listings with
    the same number give the same window, in particular a listing in
    another order, and a listing stripped of its other entries. *)
Theorem update_dimension_label_count_only
  (fs1 fs2 : FileSystem) (f1 f2 : string) (e1 e2 : list string) (a : App)
  (Hd1 : dirs fs1 !! f1 = Some e1) (Hd2 : dirs fs2 !! f2 = Some e2) :
  (length (image_set e1) = length (image_set e2) ->
   update_dimension_label fs1 f1 a = update_dimension_label fs2 f2 a)
  /\ (e1 ≡ₚ e2 ->
      update_dimension_label fs1 f1 a = update_dimension_label fs2 f2 a)
  /\ (e2 = image_set e1 ->
      update_dimension_label fs1 f1 a = update_dimension_label fs2 f2 a).
Proof.
  assert (H : length (image_set e1) = length (image_set e2) ->
              update_dimension_label fs1 f1 a = update_dimension_label fs2 f2 a).
  { intros Hlen. unfold update_dimension_label.
    now rewrite Hd1, Hd2, Hlen. }
  split; [exact H|]. split.
  - intros Hp. apply H, image_set_length_perm, Hp.
  - intros ->. apply H. now rewrite image_set_idemp.
Qed.

Lemma update_dimension_label_count_only_witness :
  update_dimension_label sample_fs "pics" fresh_app
  = update_dimension_label
      (mkFS {["mixed" := ["d.webp"; "c.gif"; "b.PNG"; "notes.txt"; "a.jpg"]]}
            ∅ ∅ ∅) "mixed" fresh_app.
Proof.
  refine (proj1 (proj2 (update_dimension_label_count_only sample_fs
            (mkFS {["mixed" := ["d.webp"; "c.gif"; "b.PNG"; "notes.txt"; "a.jpg"]]}
                  ∅ ∅ ∅) "pics" "mixed"
            ["a.jpg"; "notes.txt"; "b.PNG"; "c.gif"; "d.webp"]
            ["d.webp"; "c.gif"; "b.PNG"; "notes.txt"; "a.jpg"]
            fresh_app eq_refl eq_refl)) _).
  change ["d.webp"; "c.gif"; "b.PNG"; "notes.txt"; "a.jpg"]
    with (rev ["a.jpg"; "notes.txt"; "b.PNG"; "c.gif"; "d.webp"]).
  apply Permutation_rev.
Defined.

(** X3. Validating the same folder again changes nothing: the second
    [update_dimension_label] returns the window the first one left. *)
Theorem update_dimension_label_idempotent
  (fs : FileSystem) (folder : string) (a a' : App)
  (Hupd : update_dimension_label fs folder a = Ok a') :
  update_dimension_label fs folder a' = Ok a'.
Proof.
  revert Hupd. unfold update_dimension_label.
  destruct (dirs fs !! folder) as [entries|]; [|discriminate]. cbv zeta.
  destruct (_ =? 0); [intros [= <-]; reflexivity|].
  destruct (_ =? _); [|intros [= <-]; reflexivity].
  unfold update_final_size_label. simpl.
  destruct (Py.int (currentText (size_dropdown a))) eqn:E;
    simpl; intros [= <-]; simpl; rewrite E; reflexivity.
Qed.

Lemma update_dimension_label_idempotent_witness :
  exists a', update_dimension_label sample_fs "five" pics_app = Ok a'
             /\ update_dimension_label sample_fs "five" a' = Ok a'.
Proof.
  eexists. split; [reflexivity|].
  apply update_dimension_label_idempotent with (a := pics_app). reflexivity.
Defined.

(* ===================================================================== *)
(** * Invariants of the window                                            *)
(* ===================================================================== *)

Lemma selected_resolution (cb : ComboBox) (t : Z) :
  items cb = items setup_resolution ->
  Py.int (currentText cb) = Some t ->
  exists k, 1 <= k <= 10 /\ t = 100 * k.
Proof.
  intros Hitems. unfold currentText. rewrite Hitems.
  destruct (currentIndex cb <? 0); [discriminate|].
  change (items setup_resolution)
    with ["100"; "200"; "300"; "400"; "500"; "600"; "700"; "800"; "900"; "1000"].
  destruct (Z.to_nat (currentIndex cb)) as [|[|[|[|[|[|[|[|[|[|n]]]]]]]]]];
    simpl nth; intros H;
    try (vm_compute in H; injection H as <-;
         match goal with
         | |- exists k, _ /\ ?t = _ =>
             exists (t / 100); split; [vm_compute; split; discriminate
                                      | reflexivity]
         end).
  destruct n; discriminate H.
Qed.

Lemma update_final_size_label_fields (a a' : App) :
  update_final_size_label a = Ok a' ->
  size_dropdown a' = size_dropdown a
  /\ dimension a' = dimension a
  /\ worker a' = worker a
  /\ collage_state a' = collage_state a.
Proof.
  unfold update_final_size_label.
  destruct (dimension a) as [|[d|]] eqn:Hd; [discriminate | |].
  - destruct (Py.int _); intros [= <-]; simpl; rewrite Hd; repeat split.
  - intros [= <-]; rewrite Hd; repeat split.
Qed.

Lemma window_inv_frame (a a' : App) :
  items (size_dropdown a') = items (size_dropdown a) ->
  dimension a' = dimension a ->
  worker a' = worker a ->
  collage_state a' = collage_state a ->
  window_inv a -> window_inv a'.
Proof.
  unfold window_inv, shows_stored_collage. intros -> -> -> ->. auto.
Qed.

Lemma update_dimension_label_inv (fs : FileSystem) (folder : string)
  (a a' : App) :
  update_dimension_label fs folder a = Ok a' ->
  window_inv a -> window_inv a'.
Proof.
  intros Hupd (Hitems & _ & Hworker & Hshow).
  destruct (dirs fs !! folder) as [entries|] eqn:Hdir.
  - destruct (update_dimension_label_fields _ _ _ _ _ Hdir Hupd)
      as (Hs & Hw & Hc & _ & _ & _ & _ & Hdim).
    unfold window_inv, shows_stored_collage. rewrite Hs, Hw, Hc.
    split; [exact Hitems|]. split; [|split; assumption].
    intros d Hd.
    destruct Hdim as [(Hnone & _) | (d' & Hsome & Hpos & _)]; congruence.
  - unfold update_dimension_label in Hupd. rewrite Hdir in Hupd. discriminate.
Qed.

Lemma handle_window_inv (lib : Library)
  (builder : FileSystem -> string -> Z -> Z -> outcome Image)
  (fs fs' : FileSystem) (a a' : App) (ev : Event) :
  handle lib builder fs a ev = Ok (fs', a') ->
  window_inv a -> window_inv a'.
Proof.
  intros Hstep Ha.
  destruct ev; simpl in Hstep;
    try (injection Hstep as <- <-; revert Ha;
         apply window_inv_frame; reflexivity).
  - unfold browse_folder in Hstep. destruct (String.eqb folder_selected "").
    + injection Hstep as <- <-. exact Ha.
    + destruct (update_dimension_label fs folder_selected _) eqn:E;
        [|discriminate].
      injection Hstep as <- <-.
      apply (update_dimension_label_inv _ _ _ _ E).
      revert Ha. apply window_inv_frame; reflexivity.
  - unfold browse_output_path in Hstep.
    destruct (String.eqb file_selected ""); injection Hstep as <- <-;
      [exact Ha|]. revert Ha. apply window_inv_frame; reflexivity.
  - unfold choose_size in Hstep. destruct (_ =? _).
    + injection Hstep as <- <-. exact Ha.
    + destruct (update_final_size_label _) eqn:E; [|discriminate].
      injection Hstep as <- <-.
      apply update_final_size_label_fields in E as (Hs & Hd & Hw & Hc).
      revert Ha. apply window_inv_frame; try assumption.
      now rewrite Hs.
  - destruct (create_button_enabled a);
      [|injection Hstep as <- <-; exact Ha].
    unfold preview_collage in Hstep.
    destruct (negb _).
    { injection Hstep as <- <-. revert Ha.
      apply window_inv_frame; reflexivity. }
    destruct (dimension a) as [|[d|]] eqn:Hd; [discriminate | |].
    + destruct (Py.int _) as [t|] eqn:Ht; [|discriminate].
      injection Hstep as <- <-.
      destruct Ha as (Hitems & Hdim & Hworker & Hshow).
      unfold window_inv, shows_stored_collage. simpl.
      split; [exact Hitems|]. split; [exact Hdim|]. split; [|exact Hshow].
      intros w [= <-]. split; simpl.
      * apply Hdim, Hd.
      * eapply selected_resolution; eassumption.
    + injection Hstep as <- <-. revert Ha.
      apply window_inv_frame; reflexivity.
  - destruct (worker a) as [w|]; injection Hstep as <- <-; [|exact Ha].
    destruct Ha as (Hitems & Hdim & Hworker & Hshow).
    destruct (run builder fs w) as [c|msg]; simpl.
    + unfold window_inv, shows_stored_collage, collage_state. simpl.
      split; [exact Hitems|]. split; [exact Hdim|]. split; [exact Hworker|].
      right. eauto.
    + unfold window_inv. auto.
  - destruct (save_button_enabled a);
      [|injection Hstep as <- <-; exact Ha].
    injection Hstep as Hsave. revert Ha. apply window_inv_frame.
    all: unfold save_collage in Hsave;
      destruct (generated_collage a);
      [destruct (save lib fs _ _ _) as [fs1 [u|e]]|];
      injection Hsave as <- <-; reflexivity.
Qed.

Lemma reachable_window_inv (lib : Library)
  (builder : FileSystem -> string -> Z -> Z -> outcome Image) (a : App) :
  reachable lib builder a -> window_inv a.
Proof.
  induction 1 as [fs pictures a Hinit | fs a ev fs' a' _ IH Hstep].
  - assert (Hfresh : window_inv (set_generated_collage None (init_ui pictures))).
    { unfold window_inv, shows_stored_collage, collage_state. simpl.
      split; [reflexivity|]. split; [discriminate|].
      split; [discriminate | auto]. }
    unfold init, check_default_folder in Hinit. destruct (isdir fs _).
    + eauto using update_dimension_label_inv.
    + now injection Hinit as <-.
  - eauto using handle_window_inv.
Qed.

Lemma sample_reachable :
  reachable sample_lib (create_collage sample_lib CountThenLoad) browsed_app
  /\ reachable sample_lib (create_collage sample_lib CountThenLoad)
       previewing_app
  /\ reachable sample_lib (create_collage sample_lib CountThenLoad) built_app.
Proof.
  assert (H0 : reachable sample_lib (create_collage sample_lib CountThenLoad)
                 fresh_app).
  { apply reach_init with (fs := sample_fs) (pictures := "home"). reflexivity. }
  assert (H1 : reachable sample_lib (create_collage sample_lib CountThenLoad)
                 browsed_app).
  { eapply reach_step with (fs := sample_fs) (ev := BrowseFolder "pics");
      [exact H0 | reflexivity]. }
  assert (H2 : reachable sample_lib (create_collage sample_lib CountThenLoad)
                 previewing_app).
  { eapply reach_step with (fs := sample_fs) (ev := ClickPreview);
      [exact H1 | reflexivity]. }
  split; [exact H1|]. split; [exact H2|].
  eapply reach_step with (fs := sample_fs) (ev := WorkerResult);
    [exact H2 | reflexivity].
Qed.

(** X4. In every state of the window the resolution drop-down holds the
    ten texts it was set up with, so the tile size read from it, when it
    reads as a number, is one of 100, 200, ..., 1000. *)
Theorem reachable_resolution (lib : Library)
  (builder : FileSystem -> string -> Z -> Z -> outcome Image) (a : App)
  (Hreach : reachable lib builder a) :
  items (size_dropdown a)
  = map Py.str [100; 200; 300; 400; 500; 600; 700; 800; 900; 1000]
  /\ forall t, Py.int (currentText (size_dropdown a)) = Some t ->
       exists k, 1 <= k <= 10 /\ t = 100 * k.
Proof.
  destruct (reachable_window_inv _ _ _ Hreach) as (Hitems & _).
  split; [exact Hitems|]. intros t. now apply selected_resolution.
Qed.

Lemma reachable_resolution_witness :
  exists k, 1 <= k <= 10 /\ 400 = 100 * k.
Proof.
  destruct (reachable_resolution sample_lib
              (create_collage sample_lib CountThenLoad) browsed_app
              (proj1 sample_reachable)) as [_ H].
  apply H. reflexivity.
Defined.

(** X5. In every state of the window a grid dimension that is set is a
    positive number. *)
Theorem reachable_dimension_positive (lib : Library)
  (builder : FileSystem -> string -> Z -> Z -> outcome Image) (a : App) (d : Z)
  (Hreach : reachable lib builder a)
  (Hdim : dimension a = Bound (Some d)) :
  0 < d.
Proof.
  destruct (reachable_window_inv _ _ _ Hreach) as (_ & H & _). now apply H.
Qed.

Lemma reachable_dimension_positive_witness : 0 < 2.
Proof.
  apply (reachable_dimension_positive sample_lib
           (create_collage sample_lib CountThenLoad) browsed_app 2
           (proj1 sample_reachable)).
  reflexivity.
Defined.

(** X6. Every worker the window ever starts is created with a positive
    grid dimension and with one of the tile sizes 100, 200, ..., 1000. *)
Theorem reachable_worker_sane (lib : Library)
  (builder : FileSystem -> string -> Z -> Z -> outcome Image) (a : App)
  (w : CollageWorker)
  (Hreach : reachable lib builder a)
  (Hworker : worker a = Some w) :
  0 < w_dimension w
  /\ exists k, 1 <= k <= 10 /\ w_size_value w = 100 * k.
Proof.
  destruct (reachable_window_inv _ _ _ Hreach) as (_ & _ & H & _).
  now apply H.
Qed.

Lemma reachable_worker_sane_witness :
  0 < w_dimension (mkWorker "pics" 400 2)
  /\ exists k, 1 <= k <= 10 /\ w_size_value (mkWorker "pics" 400 2) = 100 * k.
Proof.
  apply (reachable_worker_sane sample_lib
           (create_collage sample_lib CountThenLoad) previewing_app
           (mkWorker "pics" 400 2) (proj1 (proj2 sample_reachable))).
  reflexivity.
Defined.

(** X7. In every state of the window the preview shows the collage that
    is stored: either no collage is stored and the placeholder is shown, or
    the pixmap shown was made from the stored collage. *)
Theorem reachable_preview_shows_collage (lib : Library)
  (builder : FileSystem -> string -> Z -> Z -> outcome Image) (a : App)
  (Hreach : reachable lib builder a) :
  (generated_collage a = None /\ preview_label a = Placeholder)
  \/ exists c, generated_collage a = Some c /\ preview_label a = ScaledFrom c.
Proof.
  destruct (reachable_window_inv _ _ _ Hreach) as (_ & _ & _ & H).
  destruct H as [[= H1 H2] | (c & [= H1 H2])]; eauto.
Qed.

Lemma reachable_preview_shows_collage_witness :
  exists c, generated_collage built_app = Some c
            /\ preview_label built_app = ScaledFrom c.
Proof.
  destruct (reachable_preview_shows_collage sample_lib
              (create_collage sample_lib CountThenLoad) built_app
              (proj2 (proj2 sample_reachable))) as [[Hnone _] | H].
  - vm_compute in Hnone. discriminate Hnone.
  - exact H.
Defined.

(* ===================================================================== *)
(** * Starting a build                                                    *)
(* ===================================================================== *)

Lemma save_collage_fields (lib : Library) (fs : FileSystem) (a : App) :
  exists icon title text,
    snd (save_collage lib fs a) = message_box icon title text a.
Proof.
  unfold save_collage. destruct (generated_collage a); [|simpl; eauto].
  destruct (save lib fs _ _ _) as [fs' [u|e]]; simpl; eauto.
Qed.

(** X8. The only event that starts a worker is a click on the enabled
    preview button while the selected folder exists and a grid dimension is
    set; the worker then gets the folder text, the selected tile size and
    that dimension, and no dialog is shown.  When the folder does not
    exist or the dimension is [None], [preview_collage] shows an error and
    starts nothing. *)
Theorem worker_started_only_by_preview (lib : Library)
  (builder : FileSystem -> string -> Z -> Z -> outcome Image)
  (fs : FileSystem) (a : App) :
  (forall ev fs' a',
     handle lib builder fs a ev = Ok (fs', a') ->
     worker a' <> worker a ->
     ev = ClickPreview
     /\ create_button_enabled a = true
     /\ path_exists fs (folder_path a) = true
     /\ exists d t,
          dimension a = Bound (Some d)
          /\ Py.int (currentText (size_dropdown a)) = Some t
          /\ worker a' = Some (mkWorker (folder_path a) t d)
          /\ dialogs a' = dialogs a)
  /\ (path_exists fs (folder_path a) = false \/ dimension a = Bound None ->
      exists text,
        preview_collage fs a = Ok (message_box Critical "Error" text a)).
Proof.
  split.
  - intros ev fs' a' Hstep Hchanged.
    destruct ev; simpl in Hstep;
      try (injection Hstep as <- <-; contradiction Hchanged; reflexivity).
    + unfold browse_folder in Hstep. destruct (String.eqb folder_selected "").
      * injection Hstep as <- <-. contradiction Hchanged; reflexivity.
      * destruct (update_dimension_label fs folder_selected _) eqn:E;
          [|discriminate].
        injection Hstep as <- <-. exfalso. apply Hchanged.
        destruct (dirs fs !! folder_selected) as [entries|] eqn:Hdir.
        -- now destruct (update_dimension_label_fields _ _ _ _ _ Hdir E)
             as (_ & Hw & _).
        -- unfold update_dimension_label in E. rewrite Hdir in E.
           discriminate.
    + unfold browse_output_path in Hstep.
      destruct (String.eqb file_selected "");
        injection Hstep as <- <-; contradiction Hchanged; reflexivity.
    + unfold choose_size in Hstep. destruct (_ =? _).
      * injection Hstep as <- <-. contradiction Hchanged; reflexivity.
      * destruct (update_final_size_label _) eqn:E; [|discriminate].
        injection Hstep as <- <-.
        apply update_final_size_label_fields in E as (_ & _ & Hw & _).
        contradiction.
    + split; [reflexivity|].
      destruct (create_button_enabled a);
        [|injection Hstep as <- <-; contradiction Hchanged; reflexivity].
      split; [reflexivity|]. unfold preview_collage in Hstep.
      destruct (path_exists fs (folder_path a)); simpl in Hstep;
        [|injection Hstep as <- <-; contradiction Hchanged; reflexivity].
      split; [reflexivity|].
      destruct (dimension a) as [|[d|]]; [discriminate | |].
      * destruct (Py.int _) as [t|]; [|discriminate].
        injection Hstep as <- <-. exists d, t. repeat split.
      * injection Hstep as <- <-. contradiction Hchanged; reflexivity.
    + exfalso. apply Hchanged.
      destruct (worker a) as [w|] eqn:Hw; injection Hstep as <- <-;
        [|exact Hw].
      destruct (run builder fs w); exact Hw.
    + destruct (save_button_enabled a);
        [|injection Hstep as <- <-; contradiction Hchanged; reflexivity].
      injection Hstep as Hsave.
      destruct (save_collage_fields lib fs a) as (icon & title & text & Hbox).
      rewrite Hsave in Hbox. simpl in Hbox. subst a'.
      contradiction Hchanged; reflexivity.
  - unfold preview_collage. intros [Hmissing | Hnone].
    + rewrite Hmissing. simpl. eauto.
    + destruct (negb _); [eauto|]. rewrite Hnone. eauto.
Qed.

Lemma worker_started_only_by_preview_witness :
  (exists d t, dimension browsed_app = Bound (Some d)
     /\ Py.int (currentText (size_dropdown browsed_app)) = Some t
     /\ worker previewing_app = Some (mkWorker (folder_path browsed_app) t d)
     /\ dialogs previewing_app = dialogs browsed_app)
  /\ exists text,
       preview_collage sample_fs (set_folder_path "gone" browsed_app)
       = Ok (message_box Critical "Error" text
               (set_folder_path "gone" browsed_app)).
Proof.
  split.
  - destruct (worker_started_only_by_preview sample_lib
                (create_collage sample_lib CountThenLoad) sample_fs browsed_app)
      as [H _].
    destruct (H ClickPreview sample_fs previewing_app eq_refl)
      as (_ & _ & _ & Hw).
    + vm_compute. discriminate.
    + exact Hw.
  - destruct (worker_started_only_by_preview sample_lib
                (create_collage sample_lib CountThenLoad) sample_fs
                (set_folder_path "gone" browsed_app)) as [_ H].
    apply H. left. reflexivity.
Defined.

(* ===================================================================== *)
(** * The dimension attribute                                             *)
(* ===================================================================== *)

(** X9. When the default folder is not a directory at start-up,
    [__init__] never assigns [dimension]: choosing another resolution then
    raises [AttributeError] in [update_final_size_label], and so does a
    click on the preview button once the folder field names an existing
    path, typed in or not. *)
Theorem init_without_default_folder
  (fs : FileSystem) (pictures : string)
  (Hnodir : isdir fs (Path.join pictures "images") = false) :
  exists a, init fs pictures = Ok a
    /\ dimension a = Unset
    /\ (forall lib builder fs' i, 0 <= i < 10 -> i <> 3 ->
          handle lib builder fs' a (ChooseSize i)
          = Raise (AttributeError "dimension"))
    /\ (forall lib builder fs',
          path_exists fs' (folder_path a) = true ->
          handle lib builder fs' a ClickPreview
          = Raise (AttributeError "dimension"))
    /\ (forall lib builder fs' text,
          path_exists fs' text = true ->
          exists a1,
            handle lib builder fs' a (TypeFolder text) = Ok (fs', a1)
            /\ handle lib builder fs' a1 ClickPreview
               = Raise (AttributeError "dimension")).
Proof.
  exists (set_generated_collage None (init_ui pictures)).
  split; [|split; [reflexivity|split; [|split]]].
  - unfold init, check_default_folder. simpl folder_path. now rewrite Hnodir.
  - intros lib builder fs' i Hi Hne. simpl. unfold choose_size, setCurrentIndex.
    change (length (items (size_dropdown
              (set_generated_collage None (init_ui pictures))))) with 10%nat.
    destruct (Z.leb_spec 0 i); [|lia].
    destruct (Z.ltb_spec i (Z.of_nat 10)); [|lia]. simpl.
    destruct (Z.eqb_spec i 3); [contradiction | reflexivity].
  - intros lib builder fs' Hex. simpl. unfold preview_collage.
    now rewrite Hex.
  - intros lib builder fs' text Hex. eexists. split; [reflexivity|].
    simpl. unfold preview_collage. simpl. now rewrite Hex.
Qed.

Lemma init_without_default_folder_witness :
  exists a, init sample_fs "home" = Ok a
    /\ dimension a = Unset
    /\ handle sample_lib (create_collage sample_lib CountThenLoad) sample_fs a
         (ChooseSize 5) = Raise (AttributeError "dimension").
Proof.
  destruct (init_without_default_folder sample_fs "home" eq_refl)
    as (a & Hinit & Hdim & Hchoose & _).
  exists a. split; [exact Hinit|]. split; [exact Hdim|].
  apply Hchoose; lia.
Defined.

(** X10. Once [dimension] is assigned it stays assigned, and from then on
    no event raises [AttributeError]: a handler can only fail with the
    [OSError] of listing a folder or the [ValueError] of reading the
    resolution. *)
Theorem dimension_stays_bound (lib : Library)
  (builder : FileSystem -> string -> Z -> Z -> outcome Image)
  (fs : FileSystem) (a : App) (ev : Event)
  (Hbound : dimension a <> Unset) :
  (forall fs' a', handle lib builder fs a ev = Ok (fs', a') ->
     dimension a' <> Unset)
  /\ (forall e, handle lib builder fs a ev = Raise e ->
        (exists p, e = OSError p) \/ (exists m, e = ValueError m)).
Proof.
  split.
  - intros fs' a' Hstep.
    destruct ev; simpl in Hstep;
      try (injection Hstep as <- <-; exact Hbound).
    + unfold browse_folder in Hstep. destruct (String.eqb folder_selected "").
      * injection Hstep as <- <-. exact Hbound.
      * destruct (update_dimension_label fs folder_selected _) eqn:E;
          [|discriminate].
        injection Hstep as <- <-.
        destruct (dirs fs !! folder_selected) as [entries|] eqn:Hdir.
        -- destruct (update_dimension_label_fields _ _ _ _ _ Hdir E)
             as (_ & _ & _ & _ & _ & _ & _ & H).
           destruct H as [(H & _) | (d & H & _)]; rewrite H; discriminate.
        -- unfold update_dimension_label in E. rewrite Hdir in E.
           discriminate.
    + unfold browse_output_path in Hstep.
      destruct (String.eqb file_selected "");
        injection Hstep as <- <-; exact Hbound.
    + unfold choose_size in Hstep. destruct (_ =? _).
      * injection Hstep as <- <-. exact Hbound.
      * destruct (update_final_size_label _) eqn:E; [|discriminate].
        injection Hstep as <- <-.
        apply update_final_size_label_fields in E as (_ & Hd & _).
        now rewrite Hd.
    + destruct (create_button_enabled a);
        [|injection Hstep as <- <-; exact Hbound].
      unfold preview_collage in Hstep. destruct (negb _);
        [injection Hstep as <- <-; exact Hbound|].
      destruct (dimension a) as [|[d|]] eqn:Hd; [discriminate | |].
      * destruct (Py.int _); [|discriminate].
        injection Hstep as <- <-. simpl. now rewrite Hd.
      * injection Hstep as <- <-. simpl. now rewrite Hd.
    + destruct (worker a) as [w|]; injection Hstep as <- <-;
        [|exact Hbound].
      destruct (run builder fs w); exact Hbound.
    + destruct (save_button_enabled a);
        [|injection Hstep as <- <-; exact Hbound].
      injection Hstep as Hsave.
      destruct (save_collage_fields lib fs a) as (icon & title & text & Hbox).
      rewrite Hsave in Hbox. simpl in Hbox. now subst a'.
  - intros e Hstep. destruct ev; simpl in Hstep; try discriminate.
    + unfold browse_folder in Hstep.
      destruct (String.eqb folder_selected ""); [discriminate|].
      unfold update_dimension_label in Hstep.
      destruct (dirs fs !! folder_selected);
        [|injection Hstep as <-; eauto].
      cbv zeta in Hstep. destruct (_ =? 0); [discriminate|].
      destruct (_ =? _); [|discriminate].
      edestruct update_final_size_label_bound as [text Htext];
        [|rewrite Htext in Hstep; discriminate]. reflexivity.
    + unfold choose_size in Hstep. destruct (_ =? _); [discriminate|].
      unfold update_final_size_label in Hstep. simpl in Hstep.
      destruct (dimension a) as [|[d|]]; [contradiction | |discriminate].
      destruct (Py.int _); discriminate.
    + destruct (create_button_enabled a); [|discriminate].
      unfold preview_collage in Hstep. destruct (negb _); [discriminate|].
      destruct (dimension a) as [|[d|]]; [contradiction | |discriminate].
      destruct (Py.int _); [discriminate|]. injection Hstep as <-. eauto.
    + destruct (worker a); discriminate.
    + destruct (save_button_enabled a); discriminate.
Qed.

Lemma dimension_stays_bound_witness :
  dimension previewing_app <> Unset.
Proof.
  destruct (dimension_stays_bound sample_lib
              (create_collage sample_lib CountThenLoad) sample_fs browsed_app
              ClickPreview) as [H _].
  - vm_compute. discriminate.
  - apply (H sample_fs previewing_app). reflexivity.
Defined.

(* ===================================================================== *)
(** * Changing the resolution                                             *)
(* ===================================================================== *)

Lemma current_text_at (i : Z) :
  0 <= i < 10 ->
  currentText (mkCombo (items setup_resolution) i) = Py.str (100 * (i + 1))
  /\ Py.int (Py.str (100 * (i + 1))) = Some (100 * (i + 1)).
Proof.
  intros Hi.
  assert (Hc : i = 0 \/ i = 1 \/ i = 2 \/ i = 3 \/ i = 4 \/ i = 5 \/ i = 6
               \/ i = 7 \/ i = 8 \/ i = 9) by lia.
  destruct Hc as [-> | [-> | [-> | [-> | [-> | [-> | [-> | [-> | [-> | ->]]]]]]]]];
    split; reflexivity.
Qed.

(** X11. With a grid dimension [d] set, choosing the [i]-th entry of the
    drop-down (another one than the current) selects the tile size
    [100*(i+1)] and rewrites the final-size label to [100*(i+1)*d] on both
    axes, leaving the dimension as it is; choosing the entry that is
    already selected changes nothing. *)
Theorem choose_size_updates_label (a : App) (d i : Z)
  (Hitems : items (size_dropdown a) = items setup_resolution)
  (Hdim : dimension a = Bound (Some d))
  (Hi : 0 <= i < 10) :
  (i <> currentIndex (size_dropdown a) ->
   exists a', choose_size i a = Ok a'
     /\ currentText (size_dropdown a') = Py.str (100 * (i + 1))
     /\ final_size_label a'
        = "Final collage size: " +:+ Py.str (100 * (i + 1) * d) +:+ " x "
          +:+ Py.str (100 * (i + 1) * d)
     /\ dimension a' = Bound (Some d))
  /\ (i = currentIndex (size_dropdown a) -> choose_size i a = Ok a).
Proof.
  assert (Hset : setCurrentIndex (size_dropdown a) i
                 = mkCombo (items setup_resolution) i).
  { unfold setCurrentIndex. rewrite Hitems.
    change (Z.of_nat (length (items setup_resolution))) with 10.
    destruct (Z.leb_spec 0 i); [|lia]. destruct (Z.ltb_spec i 10); [|lia].
    reflexivity. }
  unfold choose_size. rewrite Hset. simpl currentIndex. split.
  - intros Hne. destruct (Z.eqb_spec i (currentIndex (size_dropdown a)));
      [contradiction|].
    destruct (current_text_at i Hi) as [Htext Hint].
    unfold update_final_size_label.
    cbn [dimension size_dropdown set_size_dropdown].
    rewrite Hdim, Htext, Hint.
    eexists. split; [reflexivity|].
    cbn [dimension size_dropdown final_size_label set_size_dropdown
         set_final_size_label].
    auto.
  - intros ->. now rewrite Z.eqb_refl.
Qed.

Lemma choose_size_updates_label_witness :
  exists a', choose_size 0 browsed_app = Ok a'
    /\ currentText (size_dropdown a') = "100"
    /\ final_size_label a' = "Final collage size: 200 x 200".
Proof.
  destruct (choose_size_updates_label browsed_app 2 0 eq_refl eq_refl
              ltac:(lia)) as [H _].
  destruct H as (a' & Hc & Ht & Hl & _).
  - vm_compute. discriminate.
  - exists a'. split; [exact Hc|]. split; [exact Ht | exact Hl].
Defined.

(* ===================================================================== *)
(** * Builds followed by a save                                           *)
(* ===================================================================== *)

(** X12. [on_worker_finished] enables both buttons whatever the outcome:
    after a build that fails while no collage is stored, the save button
    is enabled although there is nothing to save, and a click on it shows
    the no-collage error and leaves the file system alone. *)
Theorem failed_first_build_then_save (lib : Library)
  (builder : FileSystem -> string -> Z -> Z -> outcome Image)
  (fs : FileSystem) (w : CollageWorker) (a : App) (e : exn)
  (Hnone : generated_collage a = None)
  (Hfail : builder fs (w_folder_path w) (w_size_value w) (w_dimension w)
           = Raise e) :
  let a1 := build builder fs w a in
  save_button_enabled a1 = true
  /\ create_button_enabled a1 = true
  /\ create_button_text a1 = "Generate Preview"
  /\ generated_collage a1 = None
  /\ forall fs2,
       handle lib builder fs2 a1 ClickSave
       = Ok (fs2, message_box Critical "Error"
                    "No collage to save. Generate a preview first." a1).
Proof.
  intros a1. subst a1. unfold build, run. rewrite Hfail.
  cbn [deliver on_error_occurred on_worker_finished on_worker_started].
  repeat split; try exact Hnone.
  intros fs2. simpl. unfold save_collage. simpl. now rewrite Hnone.
Qed.

Lemma failed_first_build_then_save_witness :
  save_button_enabled
    (build (create_collage sample_lib CountThenLoad) sample_fs
       (mkWorker "bad" 100 1) building_app) = true
  /\ generated_collage
       (build (create_collage sample_lib CountThenLoad) sample_fs
          (mkWorker "bad" 100 1) building_app) = None.
Proof.
  destruct (failed_first_build_then_save sample_lib
              (create_collage sample_lib CountThenLoad) sample_fs
              (mkWorker "bad" 100 1) building_app (ImageLoadError "x.jpg")
              eq_refl eq_refl) as (Hsave & _ & _ & Hnone & _).
  split; [exact Hsave | exact Hnone].
Defined.

(** X15. Typing into the folder field validates nothing: the dimension and
    both labels stay those of the folder validated before, and the next
    click on the preview button starts a worker on the typed folder with
    that earlier dimension. *)
Theorem typed_folder_not_validated (lib : Library)
  (builder : FileSystem -> string -> Z -> Z -> outcome Image)
  (fs : FileSystem) (a : App) (text : string) (d t : Z)
  (Hdim : dimension a = Bound (Some d))
  (Hsize : Py.int (currentText (size_dropdown a)) = Some t)
  (Henabled : create_button_enabled a = true)
  (Hexists : path_exists fs text = true) :
  exists a1 a2,
    handle lib builder fs a (TypeFolder text) = Ok (fs, a1)
    /\ dimension a1 = Bound (Some d)
    /\ dimension_label a1 = dimension_label a
    /\ final_size_label a1 = final_size_label a
    /\ handle lib builder fs a1 ClickPreview = Ok (fs, a2)
    /\ worker a2 = Some (mkWorker text t d)
    /\ dialogs a2 = dialogs a.
Proof.
  eexists. eexists. split; [reflexivity|].
  split; [exact Hdim|]. split; [reflexivity|]. split; [reflexivity|].
  simpl. rewrite Henabled. unfold preview_collage. simpl.
  rewrite Hexists, Hdim, Hsize. simpl. repeat split.
Qed.

Lemma typed_folder_not_validated_witness :
  exists a1 a2,
    handle sample_lib (create_collage sample_lib CountThenLoad) sample_fs
      browsed_app (TypeFolder "five") = Ok (sample_fs, a1)
    /\ dimension a1 = Bound (Some 2)
    /\ dimension_label a1 = dimension_label browsed_app
    /\ final_size_label a1 = final_size_label browsed_app
    /\ handle sample_lib (create_collage sample_lib CountThenLoad) sample_fs
         a1 ClickPreview = Ok (sample_fs, a2)
    /\ worker a2 = Some (mkWorker "five" 400 2)
    /\ dialogs a2 = dialogs browsed_app.
Proof.
  apply (typed_folder_not_validated sample_lib
           (create_collage sample_lib CountThenLoad) sample_fs browsed_app
           "five" 2 400); reflexivity.
Defined.

(* ===================================================================== *)
(** * While a build is running                                            *)
(* ===================================================================== *)

(** X16. [on_worker_started] disables both buttons, so clicks on them do
    nothing while the build runs; but browsing to a folder with a perfect
    square number [d*d] of images meanwhile makes [update_dimension_label]
    enable the preview button again, still labelled "Generating...", and a
    click on it then starts a second worker, on that folder. *)
Theorem browse_during_build (lib : Library)
  (builder : FileSystem -> string -> Z -> Z -> outcome Image)
  (fs : FileSystem) (a : App) (folder : string) (entries : list string)
  (d t : Z)
  (Hname : folder <> "")
  (Hdir : dirs fs !! folder = Some entries)
  (Hd : 0 < d)
  (Hsq : Z.of_nat (length (image_set entries)) = d * d)
  (Hsize : Py.int (currentText (size_dropdown a)) = Some t) :
  let a1 := on_worker_started a in
  handle lib builder fs a1 ClickPreview = Ok (fs, a1)
  /\ handle lib builder fs a1 ClickSave = Ok (fs, a1)
  /\ exists a2 a3,
       handle lib builder fs a1 (BrowseFolder folder) = Ok (fs, a2)
       /\ create_button_enabled a2 = true
       /\ create_button_text a2 = "Generating..."
       /\ handle lib builder fs a2 ClickPreview = Ok (fs, a3)
       /\ worker a3 = Some (mkWorker folder t d).
Proof.
  intros a1. split; [reflexivity|]. split; [reflexivity|].
  assert (Hroot : Py.isqrt (d * d) = d) by (apply Z.sqrt_square; lia).
  assert (Hupd : exists text,
            update_dimension_label fs folder (set_folder_path folder a1)
            = Ok (set_create_button_enabled true
                    (set_final_size_label text
                       (set_dimension_label
                          (Py.str d +:+ " x " +:+ Py.str d +:+ " collage ("
                           +:+ Py.str (d * d) +:+ " images)")
                          (set_dimension (Bound (Some d))
                             (set_folder_path folder a1)))))).
  { unfold update_dimension_label. rewrite Hdir. cbv zeta. rewrite Hsq.
    destruct (Z.eqb_spec (d * d) 0); [nia|].
    rewrite Hroot, Z.eqb_refl.
    edestruct update_final_size_label_bound as [text ->]; [reflexivity|].
    simpl. eauto. }
  destruct Hupd as [text Hupd].
  eexists. eexists. split.
  - simpl. unfold browse_folder.
    apply String.eqb_neq in Hname. rewrite Hname, Hupd. reflexivity.
  - split; [reflexivity|]. split; [reflexivity|]. split.
    + simpl. unfold preview_collage, path_exists, isdir. simpl.
      rewrite Hdir, Hsize.
      rewrite bool_decide_eq_true_2 by eauto. reflexivity.
    + reflexivity.
Qed.

Lemma browse_during_build_witness :
  exists a2 a3,
    handle sample_lib (create_collage sample_lib CountThenLoad) sample_fs
      (on_worker_started previewing_app) (BrowseFolder "pics")
    = Ok (sample_fs, a2)
    /\ create_button_enabled a2 = true
    /\ create_button_text a2 = "Generating..."
    /\ handle sample_lib (create_collage sample_lib CountThenLoad) sample_fs
         a2 ClickPreview = Ok (sample_fs, a3)
    /\ worker a3 = Some (mkWorker "pics" 400 2).
Proof.
  destruct (browse_during_build sample_lib
              (create_collage sample_lib CountThenLoad) sample_fs
              previewing_app "pics"
              ["a.jpg"; "notes.txt"; "b.PNG"; "c.gif"; "d.webp"] 2 400)
    as (_ & _ & H).
  - discriminate.
  - reflexivity.
  - lia.
  - reflexivity.
  - reflexivity.
  - exact H.
Defined.
